(** * fetch_depth_layer: the depth-image obstacle layer

    A shallow embedding of [src/fetch_depth_layer/src/depth_layer.cpp]
    (class [costmap_2d::FetchDepthLayer]) and the properties of its two
    callbacks, [cameraInfoCallback] and [depthImageCallback].

    Conventions.
    - C++ [float] and [double] are IEEE-754 binary32 and binary64 values,
      represented by [spec_float] with the operations of [SpecFloat] at
      the precision of the C++ type of each expression.
    - [int] and [size_t] are integers in [Z]; where the source mixes them
      in a comparison, the conversion to the 64-bit unsigned type is
      written out.
    - OpenCV, tf, cv_bridge and sensor_msgs are collaborators: their
      functions are fields of the record [Collaborators].
    - A read outside a [cv::Mat] has no defined result; it is [None].
    - Both callbacks hold the mutex of [K_] from their first statement to
      their last: a callback runs to its end before the next one starts,
      and the lock itself is not modelled. *)

From Stdlib Require Import ZArith List Bool String Lia.
From Stdlib Require Import Floats.SpecFloat.
From stdpp Require Import base option list.

Open Scope Z_scope.

(** ** Floating point *)

Module Float.

(** [float] (binary32) and [double] (binary64) share the carrier
    [spec_float]; the operations differ by precision. *)
Definition float32 := spec_float.
Definition float64 := spec_float.

Definition prec32 : Z := 24.
Definition emax32 : Z := 128.
Definition prec64 : Z := 53.
Definition emax64 : Z := 1024.

Definition signed_mantissa (s : bool) (m : positive) : Z :=
  if s then Zneg m else Zpos m.

(** Implicit conversion [float] -> [double] (exact). *)
Definition to_double (x : float32) : float64 :=
  match x with
  | S754_finite s m e =>
      binary_normalize prec64 emax64 (signed_mantissa s m) e s
  | _ => x
  end.

(** Implicit conversion [double] -> [float] (round to nearest even). *)
Definition to_float (x : float64) : float32 :=
  match x with
  | S754_finite s m e =>
      binary_normalize prec32 emax32 (signed_mantissa s m) e s
  | _ => x
  end.

(** Conversion of an integer to [float] and to [double]. *)
Definition float_of_Z (n : Z) : float32 :=
  binary_normalize prec32 emax32 n 0 false.
Definition double_of_Z (n : Z) : float64 :=
  binary_normalize prec64 emax64 n 0 false.

Definition isnan (x : spec_float) : bool :=
  match x with S754_nan => true | _ => false end.

Definition fadd : float32 -> float32 -> float32 := SFadd prec32 emax32.
Definition fsub : float32 -> float32 -> float32 := SFsub prec32 emax32.
Definition fmul : float32 -> float32 -> float32 := SFmul prec32 emax32.
Definition fdiv : float32 -> float32 -> float32 := SFdiv prec32 emax32.

Definition dadd : float64 -> float64 -> float64 := SFadd prec64 emax64.
Definition dsub : float64 -> float64 -> float64 := SFsub prec64 emax64.

(** [fabs] returns the magnitude as a [double]. *)
Definition fabs (x : float64) : float64 := SFabs x.

(** Comparisons are made on [double] operands. *)
Definition deq (x y : float64) : bool := SFeqb x y.
Definition dne (x y : float64) : bool := negb (SFeqb x y).
Definition dlt (x y : float64) : bool := SFltb x y.
Definition dle (x y : float64) : bool := SFleb x y.

(** The literals of the source. *)
Definition d0_0 : float64 := S754_zero false.
Definition d1_0 : float64 := double_of_Z 1.
Definition d25_0 : float64 := double_of_Z 25.
(** 0.1 is the binary64 number 7205759403792794 * 2^-56. *)
Definition d0_1 : float64 := S754_finite false 7205759403792794 (-56).

End Float.
Import Float.

(** [x != 0.0] and [x == 0.0] for a [float] x. *)
Definition nonzero (x : float32) : bool := dne (to_double x) d0_0.
Definition iszero (x : float32) : bool := deq (to_double x) d0_0.

(** ** cv::Mat *)

(** A matrix is its dimensions and its row-major buffer, which holds
    [rows * cols] elements. *)
Definition mat_shape {A : Type} (r c : Z) (d : list A) : bool :=
  (0 <=? r) && (0 <=? c) && (Z.of_nat (length d) =? r * c).

Record Mat (A : Type) : Type := mkMat {
  rows : Z;
  cols : Z;
  data : list A;
  shape_ok : mat_shape rows cols data = true
}.
Arguments mkMat {A} _ _ _ _.
Arguments rows {A} _.
Arguments cols {A} _.
Arguments data {A} _.
Arguments shape_ok {A} _.

(** [m.at<T>(i)]: the element at linear index [i]. *)
Definition at1 {A : Type} (m : Mat A) (i : Z) : option A :=
  if (0 <=? i) && (i <? rows m * cols m) then data m !! Z.to_nat i else None.

(** [m.at<T>(i, j)]: the element of row [i], column [j]. *)
Definition at2 {A : Type} (m : Mat A) (i j : Z) : option A :=
  if (0 <=? i) && (i <? rows m) && (0 <=? j) && (j <? cols m)
  then data m !! Z.to_nat (i * cols m + j)
  else None.

Lemma mat_shape_fmap {A B : Type} (f : A -> B) r c (d : list A) :
  mat_shape r c d = true -> mat_shape r c (f <$> d) = true.
Proof. unfold mat_shape. now rewrite length_fmap. Qed.

Lemma mat_shape_insert {A : Type} r c (d : list A) (i : nat) (v : A) :
  mat_shape r c d = true -> mat_shape r c (<[i:=v]> d) = true.
Proof. unfold mat_shape. now rewrite length_insert. Qed.

Definition mat_map {A B : Type} (f : A -> B) (m : Mat A) : Mat B :=
  mkMat (rows m) (cols m) (f <$> data m)
        (mat_shape_fmap f _ _ _ (shape_ok m)).

Lemma mat_shape_imap {A B : Type} (f : nat -> A -> B) r c (d : list A) :
  mat_shape r c d = true -> mat_shape r c (imap f d) = true.
Proof. unfold mat_shape. now rewrite length_imap. Qed.

(** A matrix of the same shape, each element computed from its linear
    index and the element at that index. *)
Definition mat_imap {A B : Type} (f : nat -> A -> B) (m : Mat A) : Mat B :=
  mkMat (rows m) (cols m) (imap f (data m))
        (mat_shape_imap f _ _ _ (shape_ok m)).

(** [m.at<T>(i) = v]. *)
Definition set1 {A : Type} (m : Mat A) (i : nat) (v : A) : Mat A :=
  mkMat (rows m) (cols m) (<[i:=v]> (data m))
        (mat_shape_insert _ _ _ i v (shape_ok m)).

(** ** Messages and layer state *)

Record Vec3f := mkVec3f { c0 : float32; c1 : float32; c2 : float32 }.
Record Vec4f := mkVec4f { v0 : float32; v1 : float32; v2 : float32; v3 : float32 }.
Record Point32 := mkPoint32 { x : float32; y : float32; z : float32 }.

(** The default constructor of [cv::Vec4f] zero-initialises. *)
Definition Vec4f_default : Vec4f :=
  mkVec4f (S754_zero false) (S754_zero false) (S754_zero false) (S754_zero false).

(** The 3x3 camera matrix [K_], in doubles. *)
Record Matx33 := mkMatx33 {
  k00 : float64; k01 : float64; k02 : float64;
  k10 : float64; k11 : float64; k12 : float64;
  k20 : float64; k21 : float64; k22 : float64
}.

(** [sensor_msgs::CameraInfo]: the projection matrix [P] (12 doubles) and
    the two binning factors ([uint32]). *)
Record CameraInfo := mkCameraInfo {
  P : list float64;
  binning_x : Z;
  binning_y : Z
}.

(** [msg->P[i]]; [P] is a fixed array of 12 entries and the source reads
    entries 0, 2 and 6 only. *)
Definition P_at (msg : CameraInfo) (i : nat) : float64 :=
  nth i (P msg) d0_0.

Record Header := mkHeader { stamp : Z; frame_id : string }.

Record PointCloud := mkPointCloud {
  header : Header;
  points : list Point32
}.

Inductive Channel := Clearing | Marking.

(** [tf::Vector3]: three doubles. *)
Record Vector3 := mkVector3 { getX : float64; getY : float64; getZ : float64 }.

(** The exceptions of tf ([tf::TransformException] and its subclasses). *)
Inductive TransformException :=
| LookupException
| ConnectivityException
| ExtrapolationException
| InvalidArgument.

(** How a call of a callback ends: it returns, an exception leaves it, or
    it has read outside a matrix. *)
Inductive completion :=
| Returned
| Uncaught (e : TransformException)
| Undefined.

(** The member variables that [onInitialize] reads from the parameter
    server. *)
Record Config := mkConfig {
  publish_observations_ : bool;
  observations_threshold_ : float64;
  find_ground_plane_ : bool;
  ground_threshold_ : float64;
  clear_nans_ : bool;
  skip_rays_bottom_ : Z;
  skip_rays_top_ : Z;
  skip_rays_left_ : Z;
  skip_rays_right_ : Z;
  clear_with_skipped_rays_ : bool
}.

(** The defaults of [onInitialize]; 0.06 and 0.9 as the nearest doubles. *)
Definition default_config : Config :=
  mkConfig false (S754_finite false 8646911284551352 (-57))
           true (S754_finite false 8106479329266893 (-53))
           false 20 20 20 20 false.

(** The two clouds a frame fills. *)
Record clouds := mkClouds {
  clearing_points : list Point32;
  marking_points : list Point32
}.

Section Layer.

(** [sensor_msgs::PointCloud2] and [sensor_msgs::Image] belong to the
    message library. *)
Variable PointCloud2 : Type.
Variable Image : Type.

(** What a callback does to the world outside the layer, in order. *)
Inductive event : Type :=
| RosError (text : string)
| RosDebug (text : string)
| Publish (ch : Channel) (cloud : PointCloud)
| BufLock (ch : Channel)
| BufferCloud (ch : Channel) (cloud : PointCloud2)
| BufUnlock (ch : Channel).

(** The functions of the libraries the layer calls.
    - [toCvCopy] is [None] when cv_bridge throws;
    - [find_planes] stands for the normals estimator followed by the
      plane estimator and yields [plane_coefficients]; both estimators
      are created on first use and kept;
    - [transformVector target source v] and [lookupTransform target
      source] are the tf calls at [ros::Time(0)]; [inr e] is the
      exception [e] thrown; of the transform only the origin is read;
    - [convertPointCloudToPointCloud2] is [None] when the conversion
      returns [false]. *)
Record Collaborators := mkCollaborators {
  msg_header : Image -> Header;
  toCvCopy : Image -> option (Mat float32);
  depthTo3d : Mat float32 -> Matx33 -> Mat Vec3f;
  find_planes : Mat float32 -> Matx33 -> Mat Vec3f -> list Vec4f;
  transformVector : string -> string -> Vector3 -> Vector3 + TransformException;
  lookupTransform : string -> string -> Vector3 + TransformException;
  convertPointCloudToPointCloud2 : PointCloud -> option PointCloud2
}.

(** *** cameraInfoCallback *)

(** The camera matrix built from focal length and principal point. *)
Definition camera_matrix (f cx cy : float32) : Matx33 :=
  mkMatx33 (to_double f) d0_0 (to_double cx)
           d0_0 (to_double f) (to_double cy)
           d0_0 d0_0 d1_0.

(** [K_] is [None] while the matrix is empty. *)
Definition cameraInfoCallback (K_ : option Matx33) (msg : CameraInfo)
  : option Matx33 * list event :=
  let focal_pixels_ := to_float (P_at msg 0) in
  let center_x_ := to_float (P_at msg 2) in
  let center_y_ := to_float (P_at msg 6) in
  if binning_x msg =? binning_y msg then
    if 0 <? binning_x msg then
      let b := float_of_Z (binning_x msg) in
      (Some (camera_matrix (fdiv focal_pixels_ b)
                           (fdiv center_x_ b)
                           (fdiv center_y_ b)), [])
    else
      (Some (camera_matrix focal_pixels_ center_x_ center_y_), [])
  else
    (K_, [RosError "binning_x is not equal to binning_y"]).

(** *** depthImageCallback: the depth image *)

(** One round of the loop over the linear indices of the image. *)
Definition clear_nans_body (image : Mat float32) (i : nat) : Mat float32 :=
  match at1 image (Z.of_nat i) with
  | Some d => if isnan d then set1 image i (to_float d25_0) else image
  | None => image
  end.

(** The bound [rows * cols] is taken in [Z]: an image has fewer than
    2^31 samples. *)
Definition clear_nans_loop (image : Mat float32) : Mat float32 :=
  fold_left clear_nans_body (seq 0 (Z.to_nat (rows image * cols image))) image.

(** The image handed to the 3D conversion. *)
Definition prepare (cfg : Config) (image : Mat float32) : Mat float32 :=
  if clear_nans_ cfg then clear_nans_loop image else image.

(** *** depthImageCallback: the ground plane *)

(** The orientation test of a candidate plane. *)
Definition ground_oriented (cfg : Config) (c : Vec4f) : bool :=
  dle (fabs (dsub d0_0 (to_double (v0 c)))) (ground_threshold_ cfg) &&
  dle (fabs (dadd d1_0 (to_double (v1 c)))) (ground_threshold_ cfg) &&
  dle (fabs (dsub d0_0 (to_double (v2 c)))) (ground_threshold_ cfg).

(** The loop over [plane_coefficients]: the first candidate that passes
    is taken, and [ground_plane] keeps its initial value otherwise. *)
Fixpoint select_ground (cfg : Config) (cands : list Vec4f) (ground_plane : Vec4f)
  : Vec4f :=
  match cands with
  | [] => ground_plane
  | c :: rest =>
      if ground_oriented cfg c then c else select_ground cfg rest ground_plane
  end.

Definition up_axis : Vector3 := mkVector3 d0_0 d0_0 d1_0.

(** The plane from tf: the normal is the rotated z axis of [base_link],
    the offset the height of the transform's origin. An exception of
    either call leaves the callback. *)
Definition ground_from_tf (env : Collaborators) (frame : string)
  : Vec4f + TransformException :=
  match transformVector env frame "base_link" up_axis with
  | inr e => inr e
  | inl vector =>
      match lookupTransform env "base_link" frame with
      | inr e => inr e
      | inl origin =>
          inl (mkVec4f (to_float (getX vector)) (to_float (getY vector))
                       (to_float (getZ vector)) (to_float (getZ origin)))
      end
  end.

Definition find_ground (env : Collaborators) (cfg : Config) (frame : string)
    (image : Mat float32) (K : Matx33) (points3d : Mat Vec3f)
  : Vec4f + TransformException :=
  if find_ground_plane_ cfg then
    inl (select_ground cfg (find_planes env image K points3d) Vec4f_default)
  else
    ground_from_tf env frame.

(** The test that the ground plane exists. *)
Definition no_ground_plane (g : Vec4f) : bool :=
  iszero (v0 g) && iszero (v1 g) && iszero (v2 g) && iszero (v3 g).

(** *** depthImageCallback: marking and clearing *)

(** Conversion of an [int] to [size_t], and [int] subtraction. *)
Definition to_size_t (n : Z) : Z := n mod 2 ^ 64.
Definition int_sub (a b : Z) : Z := (a - b + 2 ^ 31) mod 2 ^ 32 - 2 ^ 31.

(** The boundary test; [i] and [j] are [size_t], every other operand is
    an [int] and is converted to [size_t] by the comparison. *)
Definition skipped_ray (cfg : Config) (nrows ncols i j : Z) : bool :=
  (i <? to_size_t (skip_rays_top_ cfg)) ||
  (to_size_t (int_sub nrows (skip_rays_bottom_ cfg)) <=? i) ||
  (j <? to_size_t (skip_rays_left_ cfg)) ||
  (to_size_t (int_sub ncols (skip_rays_right_ cfg)) <=? j).

(** [cv::split]: the three channels of [points3d]. *)
Definition split (points3d : Mat Vec3f)
  : Mat float32 * Mat float32 * Mat float32 :=
  (mat_map c0 points3d, mat_map c1 points3d, mat_map c2 points3d).

(** The point of pixel [(i, j)], read from the three channels. *)
Definition point_at (channels : Mat float32 * Mat float32 * Mat float32)
    (i j : Z) : option Point32 :=
  let '(ch0, ch1, ch2) := channels in
  px ← at2 ch0 i j;
  py ← at2 ch1 i j;
  pz ← at2 ch2 i j;
  Some (mkPoint32 px py pz).

(** The validity test of a point. *)
Definition valid_point (p : Point32) : bool :=
  nonzero (x p) && nonzero (y p) && nonzero (z p) &&
  negb (isnan (x p)) && negb (isnan (y p)) && negb (isnan (z p)).

(** The value compared with the threshold in the floor test, computed
    in [float]. *)
Definition plane_value (g : Vec4f) (p : Point32) : float32 :=
  fadd (fadd (fadd (fmul (v0 g) (x p)) (fmul (v1 g) (y p)))
             (fmul (v2 g) (z p)))
       (v3 g).

Definition near_floor (cfg : Config) (g : Vec4f) (p : Point32) : bool :=
  dle (fabs (to_double (plane_value g p))) (observations_threshold_ cfg).

(** The closeness test of a neighbour [q] of [current_point]. *)
Definition close_to (current_point q : Point32) : bool :=
  dlt (fabs (to_double (fsub (x q) (x current_point)))) d0_1 &&
  dlt (fabs (to_double (fsub (y q) (y current_point)))) d0_1 &&
  dlt (fabs (to_double (fsub (z q) (z current_point)))) d0_1.

(** A neighbour that adds one to [num_valid]. *)
Definition supporting (current_point q : Point32) : bool :=
  valid_point q && close_to current_point q.

(** [for] over a list of indices; a round without result ends the loop. *)
Fixpoint for_each {S : Type} (idx : list Z) (body : Z -> S -> option S) (s : S)
  : option S :=
  match idx with
  | [] => Some s
  | k :: rest =>
      match body k s with
      | Some s' => for_each rest body s'
      | None => None
      end
  end.

(** The indices [0 .. n-1]. *)
Definition upto (n : Z) : list Z := map Z.of_nat (seq 0 (Z.to_nat n)).

(** The body of the loops over [x] and [y]. The sum [i + x] of a
    [size_t] and an [int], converted to the [int] parameter of [at], is
    the integer [i + x]; for [i = 0] and [x = -1] it is [-1]. *)
Definition neighbour_body (channels : Mat float32 * Mat float32 * Mat float32)
    (current_point : Point32) (i j x y : Z) (num_valid : Z) : option Z :=
  if (x =? 0) && (y =? 0) then Some num_valid
  else
    q ← point_at channels (i + x) (j + y);
    Some (if supporting current_point q then num_valid + 1 else num_valid).

Definition count_neighbours (channels : Mat float32 * Mat float32 * Mat float32)
    (current_point : Point32) (i j : Z) : option Z :=
  for_each [-1; 0; 1]
    (fun x => for_each [-1; 0; 1] (neighbour_body channels current_point i j x))
    0.

Definition push_clearing (p : Point32) (st : clouds) : clouds :=
  mkClouds (clearing_points st ++ [p]) (marking_points st).
Definition push_marking (p : Point32) (st : clouds) : clouds :=
  mkClouds (clearing_points st) (marking_points st ++ [p]).

(** The body of the loop over the pixels. *)
Definition pixel_body (cfg : Config) (ground_plane : Vec4f) (nrows ncols : Z)
    (channels : Mat float32 * Mat float32 * Mat float32)
    (i j : Z) (st : clouds) : option clouds :=
  current_point ← point_at channels i j;
  if valid_point current_point then
    let st1 :=
      if clear_with_skipped_rays_ cfg then push_clearing current_point st
      else st in
    if skipped_ray cfg nrows ncols i j then Some st1
    else
      let st2 :=
        if negb (clear_with_skipped_rays_ cfg)
        then push_clearing current_point st1 else st1 in
      if near_floor cfg ground_plane current_point then Some st2
      else
        num_valid ← count_neighbours channels current_point i j;
        Some (if 7 <=? num_valid then push_marking current_point st2 else st2)
  else Some st.

(** The two loops over [points3d]. *)
Definition classify (cfg : Config) (ground_plane : Vec4f) (points3d : Mat Vec3f)
  : option clouds :=
  let channels := split points3d in
  for_each (upto (rows points3d))
    (fun i => for_each (upto (cols points3d))
       (pixel_body cfg ground_plane (rows points3d) (cols points3d) channels i))
    (mkClouds [] []).

(** *** depthImageCallback: the hand-off *)

Definition buffer_of (ch : Channel) (cloud2 : PointCloud2) : list event :=
  [BufLock ch; BufferCloud ch cloud2; BufUnlock ch].

(** The block of one channel. The boolean tells whether the callback
    goes on after it. *)
Definition hand_off (env : Collaborators) (cfg : Config) (ch : Channel)
    (cloud : PointCloud) : list event * bool :=
  if (0 <? length (points cloud))%nat then
    let published :=
      if publish_observations_ cfg then [Publish ch cloud] else [] in
    match convertPointCloudToPointCloud2 env cloud with
    | None =>
        (published ++
         [RosError "Failed to convert a PointCloud to a PointCloud2, dropping message"],
         false)
    | Some cloud2 => (published ++ buffer_of ch cloud2, true)
    end
  else ([], true).

Definition deliver (env : Collaborators) (cfg : Config) (hdr : Header)
    (st : clouds) : list event :=
  let '(ev_clearing, go_on) :=
    hand_off env cfg Clearing (mkPointCloud hdr (clearing_points st)) in
  if go_on then
    ev_clearing ++ fst (hand_off env cfg Marking (mkPointCloud hdr (marking_points st)))
  else ev_clearing.

(** *** depthImageCallback *)

Definition depthImageCallback (env : Collaborators) (cfg : Config)
    (K_ : option Matx33) (msg : Image) : list event * completion :=
  match K_ with
  | None => ([RosDebug "Camera info not yet received."], Returned)
  | Some K =>
      match toCvCopy env msg with
      | None => ([RosError "cv_bridge exception: %s"], Returned)
      | Some image0 =>
          let image := prepare cfg image0 in
          let points3d := depthTo3d env image K in
          match find_ground env cfg (frame_id (msg_header env msg))
                            image K points3d with
          | inr e => ([], Uncaught e)
          | inl ground_plane =>
              if no_ground_plane ground_plane then
                ([RosDebug "Invalid ground plane."], Returned)
              else
                match classify cfg ground_plane points3d with
                | None => ([], Undefined)
                | Some st => (deliver env cfg (msg_header env msg) st, Returned)
                end
          end
      end
  end.

End Layer.

Arguments RosError {PointCloud2} _.
Arguments RosDebug {PointCloud2} _.
Arguments Publish {PointCloud2} _ _.
Arguments BufLock {PointCloud2} _.
Arguments BufferCloud {PointCloud2} _ _.
Arguments BufUnlock {PointCloud2} _.
Arguments cameraInfoCallback {PointCloud2} _ _.
Arguments hand_off {PointCloud2 Image} _ _ _ _.
Arguments deliver {PointCloud2 Image} _ _ _ _.
Arguments depthImageCallback {PointCloud2 Image} _ _ _ _.
Arguments find_ground {PointCloud2 Image} _ _ _ _ _ _.
Arguments ground_from_tf {PointCloud2 Image} _ _.
Arguments buffer_of {PointCloud2} _ _.
Arguments mkCollaborators {PointCloud2 Image} _ _ _ _ _ _ _.
Arguments msg_header {PointCloud2 Image} _ _.
Arguments toCvCopy {PointCloud2 Image} _ _.
Arguments depthTo3d {PointCloud2 Image} _ _ _.
Arguments find_planes {PointCloud2 Image} _ _ _ _.
Arguments transformVector {PointCloud2 Image} _ _ _ _.
Arguments lookupTransform {PointCloud2 Image} _ _ _.
Arguments convertPointCloudToPointCloud2 {PointCloud2 Image} _ _.

(** ** Reading a trace of events *)

Definition channel_eqb (a b : Channel) : bool :=
  match a, b with
  | Clearing, Clearing | Marking, Marking => true
  | _, _ => false
  end.

(** The channel an event belongs to; the log has none. *)
Definition event_channel {PC2 : Type} (e : event PC2) : option Channel :=
  match e with
  | Publish ch _ | BufLock ch | BufferCloud ch _ | BufUnlock ch => Some ch
  | RosError _ | RosDebug _ => None
  end.

(** The calls made to the observation buffer of channel [ch]. *)
Definition buffer_calls {PC2 : Type} (ch : Channel) (evs : list (event PC2))
  : list (event PC2) :=
  List.filter
    (fun e =>
       match e with
       | BufLock c | BufferCloud c _ | BufUnlock c => channel_eqb c ch
       | _ => false
       end) evs.

(** No event of the trace belongs to channel [ch]. *)
Definition silent {PC2 : Type} (ch : Channel) (evs : list (event PC2)) : Prop :=
  forall e, In e evs -> event_channel e <> Some ch.

Definition nonempty (cloud : PointCloud) : bool :=
  (0 <? length (points cloud))%nat.

(** * Definitions for the statements *)

(** ** Pixels and their neighbourhood *)

(** The element of [points3d] as a point. *)
Definition point_of (v : Vec3f) : Point32 := mkPoint32 (c0 v) (c1 v) (c2 v).

(** The eight neighbours of pixel [(i, j)] in the order the loops over
    [x] and [y] visit them; [None] when one of them is outside the
    matrix. *)
Definition neighbour (m : Mat Vec3f) (i j x y : Z) : option Point32 :=
  point_of <$> at2 m (i + x) (j + y).

Definition neighbours (m : Mat Vec3f) (i j : Z) : option (list Point32) :=
  q1 ← neighbour m i j (-1) (-1);
  q2 ← neighbour m i j (-1) 0;
  q3 ← neighbour m i j (-1) 1;
  q4 ← neighbour m i j 0 (-1);
  q5 ← neighbour m i j 0 1;
  q6 ← neighbour m i j 1 (-1);
  q7 ← neighbour m i j 1 0;
  q8 ← neighbour m i j 1 1;
  Some [q1; q2; q3; q4; q5; q6; q7; q8].

(** The number of points of [qs] that support [p]. *)
Fixpoint support_count (p : Point32) (qs : list Point32) : Z :=
  match qs with
  | [] => 0
  | q :: rest => (if supporting p q then 1 else 0) + support_count p rest
  end.

(** The pixel has its eight neighbours in the matrix. *)
Definition inner (m : Mat Vec3f) (i j : Z) : Prop :=
  1 <= i /\ i + 1 < rows m /\ 1 <= j /\ j + 1 < cols m.

(** The body of the pixel loop as [classify] runs it on [m], and the
    boundary test of [m]. *)
Definition body (cfg : Config) (ground_plane : Vec4f) (m : Mat Vec3f)
    (i j : Z) (st : clouds) : option clouds :=
  pixel_body cfg ground_plane (rows m) (cols m) (split m) i j st.

Definition edge (cfg : Config) (m : Mat Vec3f) (i j : Z) : bool :=
  skipped_ray cfg (rows m) (cols m) i j.

(** The margins as the parameters name them: [top] rows from the top,
    [bottom] rows from the bottom, and likewise for the columns. *)
Definition in_margin (cfg : Config) (nrows ncols i j : Z) : Prop :=
  i < skip_rays_top_ cfg \/ nrows - skip_rays_bottom_ cfg <= i \/
  j < skip_rays_left_ cfg \/ ncols - skip_rays_right_ cfg <= j.

(** ** Depth samples *)

(** What the loop makes of one depth sample. *)
Definition cleared (d : float32) : float32 :=
  if isnan d then to_float d25_0 else d.

(** A depth sample that the validity convention rejects: zero or NaN. *)
Definition invalid_depth (d : float32) : bool := iszero d || isnan d.

(** ** The frame and its hand-off *)

(** The events of a publication, when publication is configured. *)
Definition published {PointCloud2 : Type} (cfg : Config) (ch : Channel)
    (cloud : PointCloud) : list (event PointCloud2) :=
  if publish_observations_ cfg then [Publish ch cloud] else [].

Definition conversion_error {PointCloud2 : Type} : event PointCloud2 :=
  RosError "Failed to convert a PointCloud to a PointCloud2, dropping message".

(** The ground plane of the frame of [msg] whose image is [image0]. *)
Definition frame_ground {PointCloud2 Image : Type}
    (env : Collaborators PointCloud2 Image) (cfg : Config)
    (K : Matx33) (msg : Image) (image0 : Mat float32)
  : Vec4f + TransformException :=
  find_ground env cfg (frame_id (msg_header env msg)) (prepare cfg image0) K
              (depthTo3d env (prepare cfg image0) K).

Definition clearing_cloud (hdr : Header) (st : clouds) : PointCloud :=
  mkPointCloud hdr (clearing_points st).
Definition marking_cloud (hdr : Header) (st : clouds) : PointCloud :=
  mkPointCloud hdr (marking_points st).

(** ** Concrete frames *)

Module Demo.

Definition f (n : Z) : float32 := float_of_Z n.

Definition hdr : Header := mkHeader 0 "head_camera_depth_optical_frame".

(** An image message: its header and, when cv_bridge accepts it, its
    depth samples. *)
Definition Image : Type := Header * option (Mat float32).

(** A pinhole back-projection, [x = (c - cx) d / fx],
    [y = (r - cy) d / fy], [z = d], for the sample at linear index [k]. *)
Definition back_project (K : Matx33) (ncols : Z) (k : nat) (d : float32) : Vec3f :=
  let r := float_of_Z (Z.of_nat k / ncols) in
  let c := float_of_Z (Z.of_nat k mod ncols) in
  mkVec3f (fdiv (fmul (fsub c (to_float (k02 K))) d) (to_float (k00 K)))
          (fdiv (fmul (fsub r (to_float (k12 K))) d) (to_float (k11 K)))
          d.

Definition pinhole (image : Mat float32) (K : Matx33) : Mat Vec3f :=
  mat_imap (back_project K (cols image)) image.

(** Collaborators with a fixed list of candidate planes, fixed answers
    of tf, and a conversion that succeeds or fails. *)
Definition env (planes : list Vec4f) (tf_vector tf_origin : Vector3 + TransformException)
    (converts : bool) : Collaborators PointCloud Image :=
  mkCollaborators fst snd pinhole
    (fun _ _ _ => planes)
    (fun _ _ _ => tf_vector)
    (fun _ _ => tf_origin)
    (fun cloud => if converts then Some cloud else None).

(** Focal length 100, principal point (5, 5). *)
Definition K : Matx33 := camera_matrix (f 100) (f 5) (f 5).

(** A 3x3 depth image and a 1x2 image holding a zero and a NaN. *)
Definition depth3x3 : Mat float32 :=
  mkMat 3 3 [f 2; f 2; f 2; f 2; f 2; f 2; f 2; f 2; f 2] eq_refl.
Definition zero_and_nan : Mat float32 :=
  mkMat 1 2 [S754_zero false; S754_nan] eq_refl.

Definition msg : Image := (hdr, Some depth3x3).

(** A 3x3 grid whose points are all (1, 1, 2). *)
Definition v112 : Vec3f := mkVec3f (f 1) (f 1) (f 2).
Definition p112 : Point32 := point_of v112.
Definition grid : Mat Vec3f :=
  mkMat 3 3 [v112; v112; v112; v112; v112; v112; v112; v112; v112] eq_refl.

(** The same grid with the eight neighbours of the centre invalid. *)
Definition v000 : Vec3f := mkVec3f (f 0) (f 0) (f 0).
Definition lonely : Mat Vec3f :=
  mkMat 3 3 [v000; v000; v000; v000; v112; v000; v000; v000; v000] eq_refl.

(** The defaults with margins of one pixel, and the same with skipped
    rays used for clearing. *)
Definition cfg1 : Config :=
  mkConfig false (observations_threshold_ default_config)
           true (ground_threshold_ default_config)
           false 1 1 1 1 false.
Definition cfg1_clear : Config :=
  mkConfig false (observations_threshold_ default_config)
           true (ground_threshold_ default_config)
           false 1 1 1 1 true.

(** The plane y = 1, which holds the points of [grid], and the plane
    y = 3, which is away from them. *)
Definition plane_y1 : Vec4f := mkVec4f (f 0) (f (-1)) (f 0) (f 1).
Definition plane_y3 : Vec4f := mkVec4f (f 0) (f (-1)) (f 0) (f 3).


End Demo.

Definition cfg_clear_nans : Config :=
  mkConfig false (observations_threshold_ default_config)
           true (ground_threshold_ default_config)
           true 20 20 20 20 false.

(** A projection matrix with focal length 554 and centre (320, 240). *)
Definition demo_P : list float64 :=
  let fl := double_of_Z 554 in
  let cx := double_of_Z 320 in
  let cy := double_of_Z 240 in
  [fl; d0_0; cx; d0_0; d0_0; fl; cy; d0_0; d0_0; d0_0; d1_0; d0_0].

(** The point of the centre pixel of [Demo.depth3x3]. *)
Definition demo_centre : Point32 :=
  point_of (Demo.back_project Demo.K 3 4 (Demo.f 2)).

Definition demo_env (converts : bool) : Collaborators PointCloud Demo.Image :=
  Demo.env [Demo.plane_y1] (inr LookupException) (inr LookupException) converts.

(** * Lemmas *)

(** ** Reading a matrix *)

Section MatFacts.
Context {A : Type}.
Implicit Types (m : Mat A) (i j : Z).

Lemma mat_dims m :
  0 <= rows m /\ 0 <= cols m /\ Z.of_nat (length (data m)) = rows m * cols m.
Proof.
  pose proof (shape_ok m) as H. unfold mat_shape in H.
  apply andb_prop in H as [H H3]. apply andb_prop in H as [H1 H2].
  lia.
Qed.

(** Inside the matrix every read has a result. *)
Lemma at2_inside m i j :
  0 <= i < rows m -> 0 <= j < cols m -> is_Some (at2 m i j).
Proof.
  intros Hi Hj. unfold at2.
  replace ((0 <=? i) && (i <? rows m) && (0 <=? j) && (j <? cols m)) with true
    by (symmetry; repeat (apply andb_true_intro; split); lia).
  apply lookup_lt_is_Some.
  destruct (mat_dims m) as (_ & _ & Hlen). nia.
Qed.

Lemma at2_outside m i j :
  ~ (0 <= i < rows m /\ 0 <= j < cols m) -> at2 m i j = None.
Proof.
  intros H. unfold at2.
  destruct ((0 <=? i) && (i <? rows m) && (0 <=? j) && (j <? cols m)) eqn:E;
    [|reflexivity].
  exfalso. apply H.
  apply andb_prop in E as [E E4]. apply andb_prop in E as [E E3].
  apply andb_prop in E as [E1 E2]. lia.
Qed.

Lemma at2_Some_inside m i j (a : A) :
  at2 m i j = Some a -> 0 <= i < rows m /\ 0 <= j < cols m.
Proof.
  intros H.
  destruct (Z_le_dec 0 i), (Z_lt_dec i (rows m)),
           (Z_le_dec 0 j), (Z_lt_dec j (cols m));
    try (split; lia);
    rewrite at2_outside in H by lia; discriminate.
Qed.

Lemma at2_mat_map {B : Type} (f : A -> B) m i j :
  at2 (mat_map f m) i j = f <$> at2 m i j.
Proof.
  unfold at2, mat_map; simpl.
  destruct ((0 <=? i) && (i <? rows m) && (0 <=? j) && (j <? cols m));
    [apply list_lookup_fmap | reflexivity].
Qed.

End MatFacts.

Lemma point_at_split (m : Mat Vec3f) (i j : Z) :
  point_at (split m) i j = point_of <$> at2 m i j.
Proof.
  unfold point_at, split. rewrite !at2_mat_map.
  destruct (at2 m i j); reflexivity.
Qed.

(** ** The neighbourhood of a pixel *)

Lemma support_count_bounds p qs :
  0 <= support_count p qs <= Z.of_nat (length qs).
Proof.
  induction qs as [|q qs IH]; simpl; [lia|].
  destruct (supporting p q); lia.
Qed.

Lemma neighbours_inner m i j :
  inner m i j -> exists qs, neighbours m i j = Some qs /\ length qs = 8%nat.
Proof.
  intros (H1 & H2 & H3 & H4). unfold neighbours, neighbour.
  destruct (at2_inside m (i + -1) (j + -1)) as [a1 E1]; [lia | lia |].
  destruct (at2_inside m (i + -1) (j + 0)) as [a2 E2]; [lia | lia |].
  destruct (at2_inside m (i + -1) (j + 1)) as [a3 E3]; [lia | lia |].
  destruct (at2_inside m (i + 0) (j + -1)) as [a4 E4]; [lia | lia |].
  destruct (at2_inside m (i + 0) (j + 1)) as [a5 E5]; [lia | lia |].
  destruct (at2_inside m (i + 1) (j + -1)) as [a6 E6]; [lia | lia |].
  destruct (at2_inside m (i + 1) (j + 0)) as [a7 E7]; [lia | lia |].
  destruct (at2_inside m (i + 1) (j + 1)) as [a8 E8]; [lia | lia |].
  rewrite E1, E2, E3, E4, E5, E6, E7, E8. simpl. eauto.
Qed.

(** The loops over [x] and [y] count the supporting neighbours, and have
    a result exactly when the eight neighbours are in the matrix. *)
Lemma count_neighbours_spec (m : Mat Vec3f) (p : Point32) (i j : Z) :
  count_neighbours (split m) p i j = support_count p <$> neighbours m i j.
Proof.
  unfold count_neighbours, neighbours, neighbour.
  cbn [for_each]. unfold neighbour_body. cbn [Z.eqb andb].
  rewrite !point_at_split.
  repeat match goal with
  | |- context [at2 m ?a ?b] =>
      destruct (at2 m a b) as [?|]; cbn [fmap option_fmap option_map mbind option_bind];
      [|reflexivity]
  end.
  cbn [support_count].
  repeat match goal with
  | |- context [supporting p ?q] => destruct (supporting p q)
  end; reflexivity.
Qed.

(** ** The body of the pixel loop *)

Section PixelBody.
Variables (cfg : Config) (ground_plane : Vec4f) (m : Mat Vec3f).

(** A pixel without a valid point changes nothing. *)
Lemma body_invalid i j v st :
  at2 m i j = Some v -> valid_point (point_of v) = false ->
  body cfg ground_plane m i j st = Some st.
Proof.
  intros Hv Hp. unfold body, pixel_body.
  rewrite point_at_split, Hv. simpl. now rewrite Hp.
Qed.

(** A valid point of a skipped ray. *)
Lemma body_edge i j v st :
  at2 m i j = Some v -> valid_point (point_of v) = true -> edge cfg m i j = true ->
  body cfg ground_plane m i j st =
    Some (if clear_with_skipped_rays_ cfg
          then push_clearing (point_of v) st else st).
Proof.
  intros Hv Hp He. unfold body, pixel_body, edge in *.
  rewrite point_at_split, Hv. simpl. now rewrite Hp, He.
Qed.

(** A valid point near the floor, away from the boundary. *)
Lemma body_floor i j v st :
  at2 m i j = Some v -> valid_point (point_of v) = true -> edge cfg m i j = false ->
  near_floor cfg ground_plane (point_of v) = true ->
  body cfg ground_plane m i j st = Some (push_clearing (point_of v) st).
Proof.
  intros Hv Hp He Hf. unfold body, pixel_body, edge in *.
  rewrite point_at_split, Hv. simpl. rewrite Hp, He, Hf.
  destruct (clear_with_skipped_rays_ cfg); reflexivity.
Qed.

(** A valid point above the floor, away from the boundary: the result
    follows the count of supporting neighbours and is undefined when a
    neighbour is outside the matrix. *)
Lemma body_obstacle i j v st :
  at2 m i j = Some v -> valid_point (point_of v) = true -> edge cfg m i j = false ->
  near_floor cfg ground_plane (point_of v) = false ->
  body cfg ground_plane m i j st =
    (fun qs =>
       if 7 <=? support_count (point_of v) qs
       then push_marking (point_of v) (push_clearing (point_of v) st)
       else push_clearing (point_of v) st) <$> neighbours m i j.
Proof.
  intros Hv Hp He Hf. unfold body, pixel_body, edge in *.
  rewrite point_at_split, Hv. simpl. rewrite Hp, He, Hf.
  rewrite count_neighbours_spec.
  destruct (neighbours m i j) as [qs|]; simpl; [|reflexivity].
  destruct (clear_with_skipped_rays_ cfg); reflexivity.
Qed.

(** Outside the matrix the body has no result. *)
Lemma body_outside i j st :
  at2 m i j = None -> body cfg ground_plane m i j st = None.
Proof.
  intros Hv. unfold body, pixel_body.
  rewrite point_at_split, Hv. reflexivity.
Qed.

(** What one round may do: nothing, one point for clearing, or the same
    point for clearing and marking. *)
Lemma body_cases i j st st' :
  body cfg ground_plane m i j st = Some st' ->
  st' = st \/
  (exists p, st' = push_clearing p st) \/
  (exists p, st' = push_marking p (push_clearing p st)).
Proof.
  intros H.
  destruct (at2 m i j) as [v|] eqn:Hv;
    [|rewrite body_outside in H by assumption; discriminate].
  destruct (valid_point (point_of v)) eqn:Hp;
    [|rewrite (body_invalid i j v) in H by assumption; injection H as <-; auto].
  destruct (edge cfg m i j) eqn:He.
  { rewrite (body_edge i j v) in H by assumption. injection H as <-.
    destruct (clear_with_skipped_rays_ cfg); eauto. }
  destruct (near_floor cfg ground_plane (point_of v)) eqn:Hf.
  { rewrite (body_floor i j v) in H by assumption. injection H as <-. eauto. }
  rewrite (body_obstacle i j v) in H by assumption.
  destruct (neighbours m i j) as [qs|]; simpl in H; [|discriminate].
  injection H as <-.
  destruct (7 <=? support_count (point_of v) qs); eauto.
Qed.

(** With its neighbours in the matrix, a pixel's round has a result. *)
Lemma body_defined i j st :
  inner m i j -> is_Some (body cfg ground_plane m i j st).
Proof.
  intros Hin. pose proof Hin as (H1 & H2 & H3 & H4).
  destruct (at2_inside m i j) as [v Hv]; [lia | lia |].
  destruct (valid_point (point_of v)) eqn:Hp;
    [|rewrite (body_invalid i j v) by assumption; eauto].
  destruct (edge cfg m i j) eqn:He;
    [rewrite (body_edge i j v) by assumption; eauto|].
  destruct (near_floor cfg ground_plane (point_of v)) eqn:Hf;
    [rewrite (body_floor i j v) by assumption; eauto|].
  rewrite (body_obstacle i j v) by assumption.
  destruct (neighbours_inner m i j Hin) as (qs & -> & _). simpl. eauto.
Qed.

End PixelBody.

(** ** The loops *)

Lemma for_each_invariant {S : Type} (I : S -> Prop) (body : Z -> S -> option S) :
  forall idx s s',
    (forall k t t', In k idx -> body k t = Some t' -> I t -> I t') ->
    for_each idx body s = Some s' -> I s -> I s'.
Proof.
  induction idx as [|k idx IH]; intros s s' Hstep Hrun Hs; simpl in Hrun.
  - now injection Hrun as <-.
  - destruct (body k s) as [s1|] eqn:E; [|discriminate].
    apply (IH s1 s'); auto.
    + intros k' t t' Hk. apply Hstep. now right.
    + apply (Hstep k s s1); auto. now left.
Qed.

Lemma for_each_defined {S : Type} (body : Z -> S -> option S) :
  forall idx s,
    (forall k t, In k idx -> is_Some (body k t)) ->
    is_Some (for_each idx body s).
Proof.
  induction idx as [|k idx IH]; intros s Hdef; simpl; [eauto|].
  destruct (Hdef k s) as [s1 ->]; [now left|].
  apply IH. intros k' t Hk. apply Hdef. now right.
Qed.

Lemma In_upto (n k : Z) : In k (upto n) <-> 0 <= k < n.
Proof.
  unfold upto. rewrite in_map_iff. split.
  - intros (a & <- & Ha). apply in_seq in Ha. lia.
  - intros Hk. exists (Z.to_nat k). split; [lia|]. apply in_seq. lia.
Qed.

(** A property of the two clouds that every round of the pixel loop
    keeps holds of the clouds of the frame. *)
Lemma classify_invariant (I : clouds -> Prop) cfg g (m : Mat Vec3f) st :
  I (mkClouds [] []) ->
  (forall i j t t', body cfg g m i j t = Some t' -> I t -> I t') ->
  classify cfg g m = Some st -> I st.
Proof.
  intros H0 Hstep Hrun. unfold classify in Hrun.
  eapply (for_each_invariant I); [|exact Hrun|exact H0].
  intros i t t' _ Hrow Ht.
  eapply (for_each_invariant I); [|exact Hrow|exact Ht].
  intros j u u' _ Hbody Hu. eapply Hstep; eauto.
Qed.

(** The frame is classified when every pixel that passes the boundary
    test has its eight neighbours in the matrix. *)
Lemma classify_defined cfg g (m : Mat Vec3f) :
  (forall i j, 0 <= i < rows m -> 0 <= j < cols m ->
               edge cfg m i j = false -> inner m i j) ->
  is_Some (classify cfg g m).
Proof.
  intros Hin. unfold classify.
  apply for_each_defined. intros i t Hi. apply In_upto in Hi.
  apply for_each_defined. intros j u Hj. apply In_upto in Hj.
  change (is_Some (body cfg g m i j u)).
  destruct (at2_inside m i j) as [v Hv]; [lia | lia |].
  destruct (valid_point (point_of v)) eqn:Hp;
    [|rewrite (body_invalid cfg g m i j v) by assumption; eauto].
  destruct (edge cfg m i j) eqn:He;
    [rewrite (body_edge cfg g m i j v) by assumption; eauto|].
  apply body_defined. auto.
Qed.

(** ** The boundary test and the margins *)

Ltac int_bounds :=
  change (2 ^ 31) with 2147483648 in *;
  change (2 ^ 32) with 4294967296 in *;
  change (2 ^ 64) with 18446744073709551616 in *.

Lemma to_size_t_small n : 0 <= n < 2 ^ 64 -> to_size_t n = n.
Proof. intros H. unfold to_size_t. now apply Z.mod_small. Qed.

Lemma int_sub_small a b : - 2 ^ 31 <= a - b < 2 ^ 31 -> int_sub a b = a - b.
Proof. intros H. unfold int_sub. int_bounds. rewrite Z.mod_small; lia. Qed.

(** For margins that are not negative and not larger than the image the
    boundary test is the margin test. *)
Lemma skipped_ray_in_margin cfg nrows ncols i j :
  0 <= nrows < 2 ^ 31 -> 0 <= ncols < 2 ^ 31 ->
  0 <= skip_rays_top_ cfg < 2 ^ 31 -> 0 <= skip_rays_left_ cfg < 2 ^ 31 ->
  0 <= skip_rays_bottom_ cfg <= nrows ->
  0 <= skip_rays_right_ cfg <= ncols ->
  skipped_ray cfg nrows ncols i j = true <-> in_margin cfg nrows ncols i j.
Proof.
  intros Hr Hc Ht Hl Hb Hrt. unfold skipped_ray, in_margin.
  rewrite !int_sub_small by (int_bounds; lia).
  rewrite !to_size_t_small by (int_bounds; lia).
  rewrite !orb_true_iff, !Z.ltb_lt, !Z.leb_le. tauto.
Qed.

(** Margins of at least one pixel keep the neighbourhood of every pixel
    that passes the boundary test inside the matrix. *)
Lemma margins_keep_inner cfg (m : Mat Vec3f) i j :
  rows m < 2 ^ 31 -> cols m < 2 ^ 31 ->
  1 <= skip_rays_top_ cfg < 2 ^ 31 -> 1 <= skip_rays_left_ cfg < 2 ^ 31 ->
  1 <= skip_rays_bottom_ cfg <= rows m ->
  1 <= skip_rays_right_ cfg <= cols m ->
  edge cfg m i j = false -> inner m i j.
Proof.
  intros Hr Hc Ht Hl Hb Hrt He.
  destruct (mat_dims m) as (Hr0 & Hc0 & _).
  assert (Hm : ~ in_margin cfg (rows m) (cols m) i j).
  { rewrite <- skipped_ray_in_margin by (int_bounds; lia). unfold edge in He.
    rewrite He. discriminate. }
  unfold in_margin in Hm. unfold inner. lia.
Qed.

(** ** The loop that clears NaNs *)

Lemma clear_nans_prefix (image : Mat float32) (k : nat) :
  (k <= length (data image))%nat ->
  let r := fold_left clear_nans_body (seq 0 k) image in
  rows r = rows image /\ cols r = cols image /\
  data r = (cleared <$> take k (data image)) ++ drop k (data image).
Proof.
  induction k as [|k IH]; intros Hk.
  - simpl. rewrite drop_0. auto.
  - cbv zeta. rewrite seq_S, fold_left_app. simpl.
    destruct IH as (Hr & Hc & Hd); [lia|].
    set (r := fold_left clear_nans_body (seq 0 k) image) in *.
    destruct (lookup_lt_is_Some_2 (data image) k) as [d Hlk]; [lia|].
    assert (Hat : at1 r (Z.of_nat k) = Some d).
    { unfold at1. rewrite Hr, Hc.
      destruct (mat_dims image) as (_ & _ & Hlen).
      replace ((0 <=? Z.of_nat k) && (Z.of_nat k <? rows image * cols image))
        with true by (symmetry; apply andb_true_intro; split; lia).
      rewrite Nat2Z.id, Hd.
      rewrite lookup_app_r by (rewrite length_fmap, length_take; lia).
      rewrite length_fmap, length_take, Nat.min_l by lia.
      rewrite Nat.sub_diag, lookup_drop, Nat.add_0_r. exact Hlk. }
    unfold clear_nans_body. rewrite Hat.
    rewrite (take_S_r _ _ _ Hlk), fmap_app, <- app_assoc. simpl.
    unfold cleared at 2.
    destruct (isnan d); simpl; repeat split; try assumption.
    + rewrite Hd.
      rewrite insert_app_r_alt by (rewrite length_fmap, length_take; lia).
      rewrite length_fmap, length_take, Nat.min_l by lia.
      rewrite Nat.sub_diag, (drop_S _ _ _ Hlk). reflexivity.
    + rewrite Hd, (drop_S _ _ _ Hlk). reflexivity.
Qed.

(** The loop keeps the shape of the image and maps [cleared] over its
    samples. *)
Lemma clear_nans_loop_data (image : Mat float32) :
  rows (clear_nans_loop image) = rows image /\
  cols (clear_nans_loop image) = cols image /\
  data (clear_nans_loop image) = cleared <$> data image.
Proof.
  unfold clear_nans_loop.
  destruct (mat_dims image) as (_ & _ & Hlen).
  rewrite <- Hlen, Nat2Z.id.
  destruct (clear_nans_prefix image (length (data image))) as (Hr & Hc & Hd);
    [lia|].
  repeat split; try assumption.
  rewrite Hd, firstn_all, drop_all, app_nil_r. reflexivity.
Qed.

Lemma clear_nans_loop_at1 (image : Mat float32) (i : Z) :
  at1 (clear_nans_loop image) i = cleared <$> at1 image i.
Proof.
  destruct (clear_nans_loop_data image) as (Hr & Hc & Hd).
  unfold at1. rewrite Hr, Hc, Hd.
  destruct ((0 <=? i) && (i <? rows image * cols image));
    [apply list_lookup_fmap | reflexivity].
Qed.

Lemma cleared_not_nan (d : float32) : isnan (cleared d) = false.
Proof. unfold cleared. destruct (isnan d) eqn:E; [reflexivity | exact E]. Qed.

(** ** The hand-off of one channel *)

Section HandOff.
Context {PointCloud2 Image : Type}.
Variables (env : Collaborators PointCloud2 Image) (cfg : Config).

Lemma nonempty_true cloud : nonempty cloud = true <-> points cloud <> [].
Proof.
  unfold nonempty. destruct (points cloud); simpl; split; intros H;
    solve [discriminate | reflexivity | contradiction].
Qed.

Lemma hand_off_empty ch cloud :
  points cloud = [] -> hand_off env cfg ch cloud = ([], true).
Proof. intros H. unfold hand_off. now rewrite H. Qed.

Lemma hand_off_failed ch cloud :
  points cloud <> [] -> convertPointCloudToPointCloud2 env cloud = None ->
  hand_off env cfg ch cloud = (published cfg ch cloud ++ [conversion_error], false).
Proof.
  intros H E. apply nonempty_true in H. unfold hand_off, nonempty in *.
  now rewrite H, E.
Qed.

Lemma hand_off_done ch cloud cloud2 :
  points cloud <> [] -> convertPointCloudToPointCloud2 env cloud = Some cloud2 ->
  hand_off env cfg ch cloud = (published cfg ch cloud ++ buffer_of ch cloud2, true).
Proof.
  intros H E. apply nonempty_true in H. unfold hand_off, nonempty in *.
  now rewrite H, E.
Qed.

Lemma buffer_calls_app ch (l1 l2 : list (event PointCloud2)) :
  buffer_calls ch (l1 ++ l2) = buffer_calls ch l1 ++ buffer_calls ch l2.
Proof. apply List.filter_app. Qed.

Lemma buffer_calls_published ch ch' cloud :
  buffer_calls ch (published cfg ch' cloud) = @nil (event PointCloud2).
Proof. unfold published. destruct (publish_observations_ cfg); reflexivity. Qed.

Lemma buffer_calls_buffer_of ch ch' (cloud2 : PointCloud2) :
  buffer_calls ch (buffer_of ch' cloud2) =
    if channel_eqb ch' ch then buffer_of ch' cloud2 else [].
Proof. destruct ch, ch'; reflexivity. Qed.

(** The buffer calls of one block, and the events of its channel. *)
Lemma hand_off_calls ch ch' cloud :
  buffer_calls ch (fst (hand_off env cfg ch' cloud)) =
    if nonempty cloud && channel_eqb ch' ch then
      match convertPointCloudToPointCloud2 env cloud with
      | Some cloud2 => buffer_of ch' cloud2
      | None => []
      end
    else [].
Proof.
  destruct (nonempty cloud) eqn:N.
  - apply nonempty_true in N.
    destruct (convertPointCloudToPointCloud2 env cloud) as [c2|] eqn:E.
    + rewrite (hand_off_done ch' cloud c2) by assumption. simpl fst.
      rewrite buffer_calls_app, buffer_calls_published, buffer_calls_buffer_of.
      simpl. destruct (channel_eqb ch' ch); reflexivity.
    + rewrite (hand_off_failed ch' cloud) by assumption. simpl fst.
      rewrite buffer_calls_app, buffer_calls_published. simpl.
      destruct (channel_eqb ch' ch); reflexivity.
  - unfold hand_off, nonempty in *. rewrite N. reflexivity.
Qed.

(** A block makes no event of another channel, and none at all for an
    empty cloud. *)
Lemma hand_off_silent ch ch' cloud :
  ch' <> ch \/ points cloud = [] ->
  silent ch (fst (hand_off env cfg ch' cloud)).
Proof.
  intros H e He.
  destruct (points cloud) as [|p ps] eqn:Hp.
  { rewrite hand_off_empty in He by assumption. destruct He. }
  destruct H as [H|H]; [|discriminate].
  assert (Hch : event_channel e = Some ch' \/ event_channel e = None).
  { unfold hand_off in He. rewrite Hp in He. simpl in He.
    destruct (publish_observations_ cfg),
             (convertPointCloudToPointCloud2 env cloud);
      simpl in He; intuition (subst; simpl; auto). }
  destruct Hch as [E|E]; rewrite E; congruence.
Qed.

End HandOff.

(** ** The callback up to the hand-off *)

Section Callback.
Context {PointCloud2 Image : Type}.
Variables (env : Collaborators PointCloud2 Image) (cfg : Config).

Lemma callback_classified K msg image0 g st :
  toCvCopy env msg = Some image0 ->
  frame_ground env cfg K msg image0 = inl g ->
  no_ground_plane g = false ->
  classify cfg g (depthTo3d env (prepare cfg image0) K) = Some st ->
  depthImageCallback env cfg (Some K) msg =
    (deliver env cfg (msg_header env msg) st, Returned).
Proof.
  intros Himg Hg Hs Hc. unfold depthImageCallback, frame_ground in *.
  now rewrite Himg, Hg, Hs, Hc.
Qed.

(** A plane whose four coefficients are zeros, of either sign, does
    not pass the test that the ground plane exists. *)
Lemma zero_plane_no_ground (s0 s1 s2 s3 : bool) :
  no_ground_plane
    (mkVec4f (S754_zero s0) (S754_zero s1) (S754_zero s2) (S754_zero s3)) = true.
Proof. reflexivity. Qed.

(** Without a candidate that passes the orientation test the plane of
    the geometric mode is the zero plane. *)
Lemma select_ground_none (cands : list Vec4f) :
  (forall c, In c cands -> ground_oriented cfg c = false) ->
  select_ground cfg cands Vec4f_default = Vec4f_default.
Proof.
  induction cands as [|c cands IH]; intros H; simpl; [reflexivity|].
  rewrite (H c) by now left. apply IH. intros c' Hc'. apply H. now right.
Qed.

(** With margins of at least one pixel the callback never reads outside
    a matrix. *)
Lemma callback_defined K_ msg :
  (forall K image0, K_ = Some K -> toCvCopy env msg = Some image0 ->
     let m := depthTo3d env (prepare cfg image0) K in
     rows m < 2 ^ 31 /\ cols m < 2 ^ 31 /\
     1 <= skip_rays_bottom_ cfg <= rows m /\
     1 <= skip_rays_right_ cfg <= cols m) ->
  1 <= skip_rays_top_ cfg < 2 ^ 31 -> 1 <= skip_rays_left_ cfg < 2 ^ 31 ->
  snd (depthImageCallback env cfg K_ msg) <> Undefined.
Proof.
  intros Hm Ht Hl. unfold depthImageCallback.
  destruct K_ as [K|]; [|discriminate].
  destruct (toCvCopy env msg) as [image0|] eqn:Himg; [|discriminate].
  destruct (Hm K image0 eq_refl eq_refl) as (Hr & Hc & Hb & Hrt).
  destruct (find_ground _ _ _ _ _ _) as [g|e]; [|discriminate].
  destruct (no_ground_plane g); [discriminate|].
  destruct (classify_defined cfg g (depthTo3d env (prepare cfg image0) K))
    as [st ->]; [|discriminate].
  intros i j _ _. now apply margins_keep_inner.
Qed.

End Callback.

(** ** The hand-off of a frame *)

Section Deliver.
Context {PointCloud2 Image : Type}.
Variables (env : Collaborators PointCloud2 Image) (cfg : Config).
Variables (hdr : Header) (st : clouds).

Lemma deliver_blocks :
  deliver env cfg hdr st =
    fst (hand_off env cfg Clearing (clearing_cloud hdr st)) ++
    (if snd (hand_off env cfg Clearing (clearing_cloud hdr st))
     then fst (hand_off env cfg Marking (marking_cloud hdr st)) else []).
Proof.
  unfold deliver. fold (clearing_cloud hdr st) (marking_cloud hdr st).
  destruct (hand_off env cfg Clearing (clearing_cloud hdr st)) as [evs [|]]; simpl;
    [reflexivity | now rewrite app_nil_r].
Qed.

(** A block lets the callback go on unless the conversion of a
    non-empty cloud fails. *)
Lemma hand_off_goes_on ch cloud :
  snd (hand_off env cfg ch cloud) =
    match nonempty cloud, convertPointCloudToPointCloud2 env cloud with
    | true, None => false
    | _, _ => true
    end.
Proof.
  unfold hand_off, nonempty.
  destruct (0 <? length (points cloud))%nat; [|reflexivity].
  destruct (convertPointCloudToPointCloud2 env cloud); reflexivity.
Qed.

Lemma silent_app ch (l1 l2 : list (event PointCloud2)) :
  silent ch l1 -> silent ch l2 -> silent ch (l1 ++ l2).
Proof.
  intros H1 H2 e He. apply in_app_or in He as [He|He]; auto.
Qed.

Lemma silent_nil ch : silent ch (@nil (event PointCloud2)).
Proof. intros e []. Qed.

End Deliver.

(** ** Examples *)

Example demo_classify_grid :
  classify Demo.cfg1 Demo.plane_y3 Demo.grid =
    Some (mkClouds [Demo.p112] [Demo.p112]).
Proof. vm_compute. reflexivity. Qed.

Example demo_classify_grid_clear :
  classify Demo.cfg1_clear Demo.plane_y3 Demo.grid =
    Some (mkClouds [Demo.p112; Demo.p112; Demo.p112; Demo.p112; Demo.p112;
                    Demo.p112; Demo.p112; Demo.p112; Demo.p112] [Demo.p112]).
Proof. vm_compute. reflexivity. Qed.

Example demo_classify_floor :
  classify Demo.cfg1 Demo.plane_y1 Demo.grid = Some (mkClouds [Demo.p112] []).
Proof. vm_compute. reflexivity. Qed.

Example demo_classify_lonely :
  classify Demo.cfg1 Demo.plane_y3 Demo.lonely = Some (mkClouds [Demo.p112] []).
Proof. vm_compute. reflexivity. Qed.

(** Without margins the loop over the neighbours leaves the matrix. *)
Example demo_classify_no_margin :
  classify default_config Demo.plane_y3 Demo.grid = Some (mkClouds [] []) /\
  classify (mkConfig false d0_0 true d0_0 false 0 0 0 0 false)
           Demo.plane_y3 Demo.grid = None.
Proof. split; vm_compute; reflexivity. Qed.

Example demo_frame :
  depthImageCallback (demo_env true) Demo.cfg1 (Some Demo.K) Demo.msg =
    ([BufLock Clearing;
      BufferCloud Clearing (mkPointCloud Demo.hdr [demo_centre]);
      BufUnlock Clearing;
      BufLock Marking;
      BufferCloud Marking (mkPointCloud Demo.hdr [demo_centre]);
      BufUnlock Marking], Returned).
Proof. vm_compute. reflexivity. Qed.

Example demo_clear_nans :
  data (prepare cfg_clear_nans Demo.zero_and_nan) = [S754_zero false; Demo.f 25].
Proof. reflexivity. Qed.

Example demo_binning_2 :
  fst (cameraInfoCallback (PointCloud2 := PointCloud) (Some Demo.K)
                          (mkCameraInfo demo_P 2 2)) =
    Some (camera_matrix (Demo.f 277) (Demo.f 160) (Demo.f 120)).
Proof. vm_compute. reflexivity. Qed.

Example demo_binning_0 :
  fst (cameraInfoCallback (PointCloud2 := PointCloud) None
                          (mkCameraInfo demo_P 0 0)) =
    Some (camera_matrix (Demo.f 554) (Demo.f 320) (Demo.f 240)).
Proof. vm_compute. reflexivity. Qed.

(** The plane from tf: a rotation that maps the z axis of [base_link]
    to (0, -1, 0) and a camera 1 above the base gives the plane y = 1; a
    degenerate answer gives the zero plane. *)
Example demo_ground_from_tf :
  ground_from_tf
    (Demo.env [] (inl (mkVector3 d0_0 (double_of_Z (-1)) d0_0))
              (inl (mkVector3 d0_0 d0_0 d1_0)) true)
    (frame_id Demo.hdr) = inl Demo.plane_y1.
Proof. reflexivity. Qed.

Example demo_tf_zero_plane :
  depthImageCallback
    (Demo.env [] (inl (mkVector3 d0_0 d0_0 d0_0)) (inl (mkVector3 d0_0 d0_0 d0_0)) true)
    (mkConfig false d0_0 false d0_0 false 1 1 1 1 false)
    (Some Demo.K) Demo.msg = ([RosDebug "Invalid ground plane."], Returned).
Proof. reflexivity. Qed.

(** The exception of cv_bridge is caught: the callback logs and returns. *)
Example demo_cv_bridge_exception :
  depthImageCallback (demo_env true) Demo.cfg1 (Some Demo.K) (Demo.hdr, None) =
    ([RosError "cv_bridge exception: %s"], Returned).
Proof. reflexivity. Qed.

(** Before the first camera info the callback logs and returns. *)
Example demo_no_camera_info :
  depthImageCallback (demo_env true) Demo.cfg1 None Demo.msg =
    ([RosDebug "Camera info not yet received."], Returned).
Proof. reflexivity. Qed.

(** A bottom margin larger than the image: [rows - skip_rays_bottom_] is
    negative, its conversion to [size_t] is above every row index, and
    the test of the bottom margin holds of no pixel. *)
Example demo_oversized_bottom_margin :
  skipped_ray (mkConfig false d0_0 true d0_0 false 5 0 0 0 false) 3 3 1 1 = false.
Proof. reflexivity. Qed.

(** * The claims *)

(** C1. When the ground plane of a frame, from the plane estimator or
    from tf, is the zero plane (the test of the source holds: every
    coefficient compares equal to 0.0), the callback logs "Invalid ground
    plane." and returns: no point is classified, nothing is published
    and no observation buffer is called. *)
Theorem sentinel_plane_drops_frame {PointCloud2 Image : Type}
    (env : Collaborators PointCloud2 Image) (cfg : Config)
    (K : Matx33) (msg : Image) (image0 : Mat float32) (g : Vec4f) :
  toCvCopy env msg = Some image0 ->
  frame_ground env cfg K msg image0 = inl g ->
  no_ground_plane g = true ->
  depthImageCallback env cfg (Some K) msg =
    ([RosDebug "Invalid ground plane."], Returned) /\
  (forall ch, silent ch (fst (depthImageCallback env cfg (Some K) msg))).
Proof.
  intros Himg Hg Hs.
  assert (E : depthImageCallback env cfg (Some K) msg =
              ([RosDebug "Invalid ground plane."], Returned)).
  { unfold depthImageCallback, frame_ground in *. now rewrite Himg, Hg, Hs. }
  split; [exact E|].
  intros ch e He. rewrite E in He. simpl in He.
  destruct He as [<-|[]]. discriminate.
Qed.

(** The estimator finds no plane in the frame: the plane is
    (0, 0, 0, 0) and the frame is dropped. *)
Lemma sentinel_plane_drops_frame_witness :
  depthImageCallback (Demo.env [] (inr LookupException) (inr LookupException) true)
                     Demo.cfg1 (Some Demo.K) Demo.msg =
    ([RosDebug "Invalid ground plane."], Returned) /\
  (forall ch, silent ch
     (fst (depthImageCallback
             (Demo.env [] (inr LookupException) (inr LookupException) true)
             Demo.cfg1 (Some Demo.K) Demo.msg))).
Proof.
  apply (sentinel_plane_drops_frame _ Demo.cfg1 Demo.K Demo.msg Demo.depth3x3
           Vec4f_default); reflexivity.
Defined.

(** C2 (what the source does). In the mode that reads the ground plane
    from tf, an exception of [transformVector] or of [lookupTransform] is
    not caught: it leaves the callback before [ground_plane] is written
    and before the test for the zero plane. *)
Theorem tf_failure_leaves_callback {PointCloud2 Image : Type}
    (env : Collaborators PointCloud2 Image) (cfg : Config)
    (K : Matx33) (msg : Image) (image0 : Mat float32) (e : TransformException) :
  toCvCopy env msg = Some image0 ->
  find_ground_plane_ cfg = false ->
  (transformVector env (frame_id (msg_header env msg)) "base_link" up_axis = inr e \/
   (exists vector,
      transformVector env (frame_id (msg_header env msg)) "base_link" up_axis
        = inl vector /\
      lookupTransform env "base_link" (frame_id (msg_header env msg)) = inr e)) ->
  depthImageCallback env cfg (Some K) msg = ([], Uncaught e).
Proof.
  intros Himg Hmode Htf. unfold depthImageCallback. rewrite Himg.
  unfold find_ground, ground_from_tf. rewrite Hmode.
  destruct Htf as [-> | (vector & -> & ->)]; reflexivity.
Qed.

Lemma tf_failure_leaves_callback_witness :
  depthImageCallback
    (Demo.env [] (inr LookupException) (inr LookupException) true)
    (mkConfig false d0_0 false d0_0 false 1 1 1 1 false)
    (Some Demo.K) Demo.msg = ([], Uncaught LookupException).
Proof.
  apply (tf_failure_leaves_callback _ _ Demo.K Demo.msg Demo.depth3x3);
    [reflexivity | reflexivity | left; reflexivity].
Defined.

(** C3 as stated fails: with [clear_nans] enabled, a depth sample equal
    to 0 is invalid, is not replaced by 25.0, and is still in the image
    handed to the 3D conversion. *)
Lemma clear_nans_keeps_zero_counterexample :
  clear_nans_ cfg_clear_nans = true /\
  at1 Demo.zero_and_nan 0 = Some (S754_zero false) /\
  invalid_depth (S754_zero false) = true /\
  at1 (prepare cfg_clear_nans Demo.zero_and_nan) 0 = Some (S754_zero false) /\
  S754_zero false <> to_float d25_0.
Proof. repeat split; try reflexivity. discriminate. Qed.

(** C3, amended. With [clear_nans] enabled the image handed to the 3D
    conversion has the shape of the decoded image; every NaN sample is
    replaced by 25.0 and every other sample, a zero included, is left as
    it is; no NaN remains. *)
Theorem clear_nans_replaces_nans (cfg : Config) (image : Mat float32) :
  clear_nans_ cfg = true ->
  rows (prepare cfg image) = rows image /\
  cols (prepare cfg image) = cols image /\
  (forall i d, at1 image i = Some d ->
     at1 (prepare cfg image) i = Some (if isnan d then to_float d25_0 else d)) /\
  (forall i d, at1 (prepare cfg image) i = Some d -> isnan d = false).
Proof.
  intros Hc. unfold prepare. rewrite Hc.
  destruct (clear_nans_loop_data image) as (Hr & Hcl & _).
  repeat split; try assumption.
  - intros i d Hd. rewrite clear_nans_loop_at1, Hd. reflexivity.
  - intros i d Hd. rewrite clear_nans_loop_at1 in Hd.
    destruct (at1 image i) as [d0|]; simpl in Hd; [|discriminate].
    injection Hd as <-. apply cleared_not_nan.
Qed.

Lemma clear_nans_replaces_nans_witness :
  rows (prepare cfg_clear_nans Demo.zero_and_nan) = 1 /\
  cols (prepare cfg_clear_nans Demo.zero_and_nan) = 2 /\
  (forall i d, at1 Demo.zero_and_nan i = Some d ->
     at1 (prepare cfg_clear_nans Demo.zero_and_nan) i =
       Some (if isnan d then to_float d25_0 else d)) /\
  (forall i d, at1 (prepare cfg_clear_nans Demo.zero_and_nan) i = Some d ->
     isnan d = false).
Proof.
  apply (clear_nans_replaces_nans cfg_clear_nans Demo.zero_and_nan). reflexivity.
Defined.



(** C7. A camera info whose binning factors differ leaves [K_] as it
    was and logs an error, nothing else. With equal factors [K_] is
    replaced, whatever it held: focal length and principal point (read
    into [float] variables) are divided by the factor when it is
    positive and taken as they are when it is 0. *)
Theorem intrinsics_update_by_binning {PointCloud2 : Type}
    (K_ : option Matx33) (msg : CameraInfo) :
  let focal := to_float (P_at msg 0) in
  let cx := to_float (P_at msg 2) in
  let cy := to_float (P_at msg 6) in
  let b := float_of_Z (binning_x msg) in
  (binning_x msg <> binning_y msg ->
     cameraInfoCallback (PointCloud2 := PointCloud2) K_ msg =
       (K_, [RosError "binning_x is not equal to binning_y"])) /\
  (binning_x msg = binning_y msg -> 0 < binning_x msg ->
     cameraInfoCallback (PointCloud2 := PointCloud2) K_ msg =
       (Some (mkMatx33 (to_double (fdiv focal b)) d0_0 (to_double (fdiv cx b))
                       d0_0 (to_double (fdiv focal b)) (to_double (fdiv cy b))
                       d0_0 d0_0 d1_0), [])) /\
  (binning_x msg = binning_y msg -> binning_x msg = 0 ->
     cameraInfoCallback (PointCloud2 := PointCloud2) K_ msg =
       (Some (mkMatx33 (to_double focal) d0_0 (to_double cx)
                       d0_0 (to_double focal) (to_double cy)
                       d0_0 d0_0 d1_0), [])).
Proof.
  cbv zeta. unfold cameraInfoCallback, camera_matrix. repeat split.
  - intros H. apply Z.eqb_neq in H. now rewrite H.
  - intros H Hpos. apply Z.eqb_eq in H. apply Z.ltb_lt in Hpos.
    now rewrite H, Hpos.
  - intros H H0. apply Z.eqb_eq in H. rewrite H, H0. reflexivity.
Qed.

Lemma intrinsics_update_by_binning_witness :
  cameraInfoCallback (PointCloud2 := PointCloud) (Some Demo.K)
                     (mkCameraInfo demo_P 2 1) =
    (Some Demo.K, [RosError "binning_x is not equal to binning_y"]).
Proof.
  apply (proj1 (intrinsics_update_by_binning (PointCloud2 := PointCloud)
                  (Some Demo.K) (mkCameraInfo demo_P 2 1))).
  discriminate.
Defined.

(** C8 as stated fails: the frame below has one point in each cloud and
    the conversion to PointCloud2 fails; the callback logs the error and
    returns without a call to either observation buffer. *)
Lemma hand_off_iff_nonempty_counterexample :
  classify Demo.cfg1 Demo.plane_y1 (Demo.pinhole Demo.depth3x3 Demo.K) =
    Some (mkClouds [demo_centre] [demo_centre]) /\
  depthImageCallback (demo_env false) Demo.cfg1 (Some Demo.K) Demo.msg =
    ([RosError "Failed to convert a PointCloud to a PointCloud2, dropping message"],
     Returned) /\
  buffer_calls Clearing
    (fst (depthImageCallback (demo_env false) Demo.cfg1 (Some Demo.K) Demo.msg))
    = [] /\
  buffer_calls Marking
    (fst (depthImageCallback (demo_env false) Demo.cfg1 (Some Demo.K) Demo.msg))
    = [].
Proof. repeat split; vm_compute; reflexivity. Qed.

(** C8, amended. The buffer of a channel is called (lock, bufferCloud,
    unlock, in this order and once) if and only if the cloud of the
    channel is not empty, its conversion succeeds and, for the marking
    channel, the callback has not returned on a failed conversion of a
    non-empty clearing cloud; a channel with an empty cloud has no event
    at all. *)
Theorem hand_off_when_converted {PointCloud2 Image : Type}
    (env : Collaborators PointCloud2 Image) (cfg : Config)
    (hdr : Header) (st : clouds) :
  let cc := mkPointCloud hdr (clearing_points st) in
  let mc := mkPointCloud hdr (marking_points st) in
  let evs := deliver env cfg hdr st in
  buffer_calls Clearing evs =
    (if nonempty cc then
       match convertPointCloudToPointCloud2 env cc with
       | Some cloud2 => buffer_of Clearing cloud2
       | None => []
       end
     else []) /\
  buffer_calls Marking evs =
    match nonempty cc, convertPointCloudToPointCloud2 env cc with
    | true, None => []
    | _, _ =>
        if nonempty mc then
          match convertPointCloudToPointCloud2 env mc with
          | Some cloud2 => buffer_of Marking cloud2
          | None => []
          end
        else []
    end /\
  (clearing_points st = [] -> silent Clearing evs) /\
  (marking_points st = [] -> silent Marking evs).
Proof.
  cbv zeta. rewrite deliver_blocks. unfold clearing_cloud, marking_cloud.
  set (cc := mkPointCloud hdr (clearing_points st)).
  set (mc := mkPointCloud hdr (marking_points st)).
  repeat split.
  - rewrite buffer_calls_app, hand_off_calls.
    replace (buffer_calls Clearing
               (if snd (hand_off env cfg Clearing cc)
                then fst (hand_off env cfg Marking mc) else []))
      with (@nil (event PointCloud2)).
    + rewrite app_nil_r. simpl channel_eqb. now rewrite andb_true_r.
    + destruct (snd (hand_off env cfg Clearing cc)); [|reflexivity].
      rewrite hand_off_calls. simpl channel_eqb. now rewrite andb_false_r.
  - rewrite buffer_calls_app, hand_off_calls, hand_off_goes_on.
    simpl channel_eqb. rewrite andb_false_r. simpl app.
    destruct (nonempty cc), (convertPointCloudToPointCloud2 env cc);
      try reflexivity;
      rewrite hand_off_calls; simpl channel_eqb; now rewrite andb_true_r.
  - intros Hc. apply silent_app.
    + apply hand_off_silent. now right.
    + destruct (snd (hand_off env cfg Clearing cc)); [|apply silent_nil].
      apply hand_off_silent. left. discriminate.
  - intros Hm. apply silent_app.
    + apply hand_off_silent. left. discriminate.
    + destruct (snd (hand_off env cfg Clearing cc)); [|apply silent_nil].
      apply hand_off_silent. now right.
Qed.

(** C9. The marking cloud of a classified frame is a sublist of its
    clearing cloud, so every marking point is a clearing point, under
    both settings of [clear_with_skipped_rays]; a round of the pixel
    loop that adds a point to the marking cloud adds the same point to
    the clearing cloud. *)
Theorem marking_within_clearing (cfg : Config) (g : Vec4f) (m : Mat Vec3f)
    (st : clouds) :
  classify cfg g m = Some st ->
  marking_points st `sublist_of` clearing_points st /\
  (forall p, In p (marking_points st) -> In p (clearing_points st)) /\
  (forall i j t t',
     body cfg g m i j t = Some t' -> marking_points t' <> marking_points t ->
     exists p, marking_points t' = marking_points t ++ [p] /\
               clearing_points t' = clearing_points t ++ [p]).
Proof.
  intros Hrun.
  assert (Hsub : marking_points st `sublist_of` clearing_points st).
  { apply (classify_invariant
             (fun s => marking_points s `sublist_of` clearing_points s)
             cfg g m st); [constructor | | exact Hrun].
    intros i j t t' Hb Ht.
    destruct (body_cases cfg g m i j t t' Hb) as [-> | [(p & ->) | (p & ->)]];
      simpl.
    - exact Ht.
    - now apply sublist_inserts_r.
    - now apply sublist_app. }
  repeat split; [exact Hsub | |].
  - intros p Hp. apply list_elem_of_In. apply list_elem_of_In in Hp.
    eapply elem_of_sublist; eauto.
  - intros i j t t' Hb Hne.
    destruct (body_cases cfg g m i j t t' Hb) as [-> | [(p & ->) | (p & ->)]];
      simpl in *; try contradiction.
    exists p. auto.
Qed.

Lemma marking_within_clearing_witness :
  marking_points (mkClouds [Demo.p112] [Demo.p112])
    `sublist_of` clearing_points (mkClouds [Demo.p112] [Demo.p112]) /\
  (forall p, In p (marking_points (mkClouds [Demo.p112] [Demo.p112])) ->
             In p (clearing_points (mkClouds [Demo.p112] [Demo.p112]))) /\
  (forall i j t t',
     body Demo.cfg1 Demo.plane_y3 Demo.grid i j t = Some t' ->
     marking_points t' <> marking_points t ->
     exists p, marking_points t' = marking_points t ++ [p] /\
               clearing_points t' = clearing_points t ++ [p]).
Proof.
  apply (marking_within_clearing Demo.cfg1 Demo.plane_y3 Demo.grid).
  vm_compute. reflexivity.
Defined.

(** C10. When the clearing cloud is not empty and its conversion fails,
    the callback logs the error and returns: after the optional
    publication of the clearing cloud there is no event of the marking
    channel, whatever the marking cloud holds and whatever its
    conversion would give. *)
Theorem clearing_failure_abandons_frame {PointCloud2 Image : Type}
    (env : Collaborators PointCloud2 Image) (cfg : Config)
    (hdr : Header) (st : clouds) :
  clearing_points st <> [] ->
  convertPointCloudToPointCloud2 env (mkPointCloud hdr (clearing_points st)) = None ->
  deliver env cfg hdr st =
    (if publish_observations_ cfg
     then [Publish Clearing (mkPointCloud hdr (clearing_points st))] else []) ++
    [RosError "Failed to convert a PointCloud to a PointCloud2, dropping message"] /\
  silent Marking (deliver env cfg hdr st) /\
  buffer_calls Marking (deliver env cfg hdr st) = [] /\
  buffer_calls Clearing (deliver env cfg hdr st) = [].
Proof.
  intros Hne Hconv.
  assert (E : deliver env cfg hdr st =
              (if publish_observations_ cfg
               then [Publish Clearing (mkPointCloud hdr (clearing_points st))]
               else []) ++
              [RosError "Failed to convert a PointCloud to a PointCloud2, dropping message"]).
  { unfold deliver.
    rewrite (hand_off_failed env cfg Clearing (mkPointCloud hdr (clearing_points st)))
      by assumption.
    reflexivity. }
  rewrite E. repeat split.
  - intros e He. destruct (publish_observations_ cfg); simpl in He;
      intuition (subst; simpl; discriminate).
  - destruct (publish_observations_ cfg); reflexivity.
  - destruct (publish_observations_ cfg); reflexivity.
Qed.

Lemma clearing_failure_abandons_frame_witness :
  deliver (demo_env false) Demo.cfg1 Demo.hdr (mkClouds [demo_centre] [demo_centre]) =
    [] ++
    [RosError "Failed to convert a PointCloud to a PointCloud2, dropping message"] /\
  silent Marking
    (deliver (demo_env false) Demo.cfg1 Demo.hdr
             (mkClouds [demo_centre] [demo_centre])) /\
  buffer_calls Marking
    (deliver (demo_env false) Demo.cfg1 Demo.hdr
             (mkClouds [demo_centre] [demo_centre])) = [] /\
  buffer_calls Clearing
    (deliver (demo_env false) Demo.cfg1 Demo.hdr
             (mkClouds [demo_centre] [demo_centre])) = [].
Proof.
  apply (clearing_failure_abandons_frame (demo_env false) Demo.cfg1 Demo.hdr
           (mkClouds [demo_centre] [demo_centre]));
    [discriminate | reflexivity].
Defined.

(** * Further properties *)

(** ** The clouds of a frame, pixel by pixel *)

(** What the round of pixel [(i, j)] appends to the clearing cloud and to
    the marking cloud. *)
Definition clears (cfg : Config) (m : Mat Vec3f) (i j : Z) : list Point32 :=
  match at2 m i j with
  | Some v =>
      if valid_point (point_of v) &&
         (clear_with_skipped_rays_ cfg || negb (edge cfg m i j))
      then [point_of v] else []
  | None => []
  end.

Definition marks (cfg : Config) (g : Vec4f) (m : Mat Vec3f) (i j : Z)
  : list Point32 :=
  match at2 m i j, neighbours m i j with
  | Some v, Some qs =>
      if valid_point (point_of v) && negb (edge cfg m i j) &&
         negb (near_floor cfg g (point_of v)) &&
         (7 <=? support_count (point_of v) qs)
      then [point_of v] else []
  | _, _ => []
  end.

(** Both clouds extended at their ends. *)
Definition extend (st : clouds) (more : list Point32 * list Point32) : clouds :=
  mkClouds (clearing_points st ++ fst more) (marking_points st ++ snd more).

(** The pixels of row [i], and of the whole matrix, in the order of the
    loops. *)
Definition row_pixels (m : Mat Vec3f) (i : Z) : list (Z * Z) :=
  map (pair i) (upto (cols m)).
Definition pixels (m : Mat Vec3f) : list (Z * Z) :=
  flat_map (row_pixels m) (upto (rows m)).

Lemma extend_nil st : extend st ([], []) = st.
Proof. destruct st. unfold extend. simpl. now rewrite !app_nil_r. Qed.

Lemma extend_extend st a b :
  extend (extend st a) b = extend st (fst a ++ fst b, snd a ++ snd b).
Proof. unfold extend. simpl. now rewrite !app_assoc. Qed.

(** A round appends its two contributions and nothing else. *)
Lemma body_appends cfg g m i j st st' :
  body cfg g m i j st = Some st' ->
  st' = extend st (clears cfg m i j, marks cfg g m i j).
Proof.
  intros H. unfold clears, marks.
  destruct (at2 m i j) as [v|] eqn:Hv;
    [|rewrite body_outside in H by assumption; discriminate].
  destruct (valid_point (point_of v)) eqn:Hp.
  2:{ rewrite (body_invalid cfg g m i j v) in H by assumption.
      injection H as <-. simpl.
      destruct (neighbours m i j); now rewrite extend_nil. }
  destruct (edge cfg m i j) eqn:He.
  { rewrite (body_edge cfg g m i j v) in H by assumption. injection H as <-.
    simpl. rewrite orb_false_r.
    destruct (clear_with_skipped_rays_ cfg), (neighbours m i j);
      destruct st; unfold extend, push_clearing; simpl;
      now rewrite ?app_nil_r. }
  simpl. rewrite orb_true_r.
  destruct (near_floor cfg g (point_of v)) eqn:Hf.
  { rewrite (body_floor cfg g m i j v) in H by assumption. injection H as <-.
    simpl. destruct (neighbours m i j);
      destruct st; unfold extend, push_clearing; simpl;
      now rewrite ?app_nil_r. }
  rewrite (body_obstacle cfg g m i j v) in H by assumption.
  destruct (neighbours m i j) as [qs|]; simpl in H; [|discriminate].
  injection H as <-. simpl.
  destruct (7 <=? support_count (point_of v) qs);
    destruct st; unfold extend, push_clearing, push_marking; simpl;
    now rewrite ?app_nil_r.
Qed.

(** A loop whose rounds append contributions appends their
    concatenation. *)
Lemma for_each_appends (c : Z -> list Point32 * list Point32)
    (body : Z -> clouds -> option clouds) :
  forall idx s s',
    (forall k t t', In k idx -> body k t = Some t' -> t' = extend t (c k)) ->
    for_each idx body s = Some s' ->
    s' = extend s (flat_map (fun k => fst (c k)) idx,
                   flat_map (fun k => snd (c k)) idx).
Proof.
  induction idx as [|k idx IH]; intros s s' Hstep Hrun; simpl in Hrun.
  - injection Hrun as <-. simpl. now rewrite extend_nil.
  - destruct (body k s) as [s1|] eqn:E; [|discriminate].
    rewrite (IH s1 s') by (auto; intros; eapply Hstep; eauto; now right).
    rewrite (Hstep k s s1) by (auto; now left).
    rewrite extend_extend. reflexivity.
Qed.

Lemma flat_map_row {B : Type} (f : Z -> Z -> list B) (m : Mat Vec3f) (i : Z) :
  flat_map (fun ij => f (fst ij) (snd ij)) (row_pixels m i) =
  flat_map (f i) (upto (cols m)).
Proof.
  unfold row_pixels. induction (upto (cols m)) as [|j l IH]; simpl;
    [reflexivity | now rewrite IH].
Qed.

Lemma flat_map_pixels {B : Type} (f : Z -> Z -> list B) (m : Mat Vec3f) :
  flat_map (fun ij => f (fst ij) (snd ij)) (pixels m) =
  flat_map (fun i => flat_map (f i) (upto (cols m))) (upto (rows m)).
Proof.
  unfold pixels. induction (upto (rows m)) as [|i l IH]; simpl; [reflexivity|].
  now rewrite flat_map_app, flat_map_row, IH.
Qed.

Lemma In_pixels (m : Mat Vec3f) (i j : Z) :
  In (i, j) (pixels m) <-> 0 <= i < rows m /\ 0 <= j < cols m.
Proof.
  unfold pixels, row_pixels. rewrite in_flat_map. split.
  - intros (i' & Hi & Hj). apply in_map_iff in Hj as (j' & E & Hj).
    injection E as <- <-. apply In_upto in Hi, Hj. auto.
  - intros (Hi & Hj). exists i. split; [now apply In_upto|].
    apply in_map_iff. exists j. split; [reflexivity | now apply In_upto].
Qed.

(** The clouds of a classified frame are the contributions of its pixels,
    row after row. *)
Lemma classify_contributions cfg g (m : Mat Vec3f) st :
  classify cfg g m = Some st ->
  clearing_points st =
    flat_map (fun ij => clears cfg m (fst ij) (snd ij)) (pixels m) /\
  marking_points st =
    flat_map (fun ij => marks cfg g m (fst ij) (snd ij)) (pixels m).
Proof.
  intros Hrun. unfold classify in Hrun.
  rewrite (flat_map_pixels (clears cfg m)), (flat_map_pixels (marks cfg g m)).
  apply (for_each_appends
           (fun i => (flat_map (clears cfg m i) (upto (cols m)),
                      flat_map (marks cfg g m i) (upto (cols m))))) in Hrun.
  - rewrite Hrun. simpl. auto.
  - intros i t t' _ Hrow.
    apply (for_each_appends (fun j => (clears cfg m i j, marks cfg g m i j)))
      in Hrow; [exact Hrow|].
    intros j u u' _ Hb. now apply body_appends.
Qed.

(** The matrix read pixel by pixel, row after row, is its buffer. *)
Lemma row_prefix {A : Type} (m : Mat A) (i : Z) (k : nat) :
  0 <= i < rows m -> Z.of_nat k <= cols m ->
  flat_map (fun j => match at2 m i j with Some v => [v] | None => [] end)
           (map Z.of_nat (seq 0 k)) =
  take k (drop (Z.to_nat (i * cols m)) (data m)).
Proof.
  intros Hi. induction k as [|k IH]; intros Hk; [reflexivity|].
  rewrite seq_S, map_app, flat_map_app, IH by lia. simpl.
  destruct (at2_inside m i (Z.of_nat k)) as [v Hv]; [lia | lia |].
  rewrite Hv. simpl.
  assert (Hlk : drop (Z.to_nat (i * cols m)) (data m) !! k = Some v).
  { rewrite lookup_drop. unfold at2 in Hv.
    destruct ((0 <=? i) && (i <? rows m) && (0 <=? Z.of_nat k) &&
              (Z.of_nat k <? cols m)); [|discriminate].
    rewrite <- Hv. f_equal. nia. }
  now rewrite (take_S_r _ _ _ Hlk).
Qed.

Lemma rows_prefix {A : Type} (m : Mat A) (n : nat) :
  Z.of_nat n <= rows m ->
  flat_map (fun i =>
              flat_map (fun j => match at2 m i j with Some v => [v] | None => [] end)
                       (upto (cols m)))
           (map Z.of_nat (seq 0 n)) =
  take (n * Z.to_nat (cols m)) (data m).
Proof.
  destruct (mat_dims m) as (Hr & Hc & Hlen).
  induction n as [|n IH]; intros Hn; [reflexivity|].
  rewrite seq_S, map_app, flat_map_app, IH by lia. simpl.
  rewrite app_nil_r. unfold upto. rewrite row_prefix by lia.
  replace (Z.to_nat (Z.of_nat n * cols m)) with (n * Z.to_nat (cols m))%nat by nia.
  replace (Z.to_nat (cols m) + n * Z.to_nat (cols m))%nat
    with (n * Z.to_nat (cols m) + Z.to_nat (cols m))%nat by lia.
  now rewrite take_take_drop.
Qed.

Lemma pixels_read_buffer (m : Mat Vec3f) :
  flat_map (fun ij => match at2 m (fst ij) (snd ij) with
                      | Some v => [v] | None => [] end) (pixels m) = data m.
Proof.
  rewrite (flat_map_pixels
             (fun i j => match at2 m i j with Some v => [v] | None => [] end)).
  destruct (mat_dims m) as (Hr & Hc & Hlen).
  change (upto (rows m)) with (map Z.of_nat (seq 0 (Z.to_nat (rows m)))).
  rewrite rows_prefix by lia.
  apply take_ge. nia.
Qed.

Lemma flat_map_flat_map {A B C : Type} (f : B -> list C) (h : A -> list B)
    (l : list A) :
  flat_map f (flat_map h l) = flat_map (fun a => flat_map f (h a)) l.
Proof.
  induction l as [|a l IH]; simpl; [reflexivity|].
  now rewrite flat_map_app, IH.
Qed.

Lemma pixels_flat_map {B : Type} (f : Vec3f -> list B) (m : Mat Vec3f) :
  flat_map (fun ij => match at2 m (fst ij) (snd ij) with
                      | Some v => f v | None => [] end) (pixels m) =
  flat_map f (data m).
Proof.
  rewrite <- (pixels_read_buffer m) at 1. rewrite flat_map_flat_map.
  apply flat_map_ext. intros [i j]. simpl.
  destruct (at2 m i j); simpl; [now rewrite app_nil_r | reflexivity].
Qed.

Lemma flat_map_filter {A B : Type} (f : A -> B) (keep : B -> bool) (l : list A) :
  flat_map (fun a => if keep (f a) then [f a] else []) l =
  List.filter keep (map f l).
Proof.
  induction l as [|a l IH]; simpl; [reflexivity|].
  rewrite IH. destruct (keep (f a)); reflexivity.
Qed.

Lemma neighbours_Some_inner (m : Mat Vec3f) (i j : Z) (qs : list Point32) :
  neighbours m i j = Some qs -> inner m i j /\ length qs = 8%nat.
Proof.
  unfold neighbours, neighbour. intros H.
  destruct (at2 m (i + -1) (j + -1)) as [a1|] eqn:E1; [|discriminate].
  destruct (at2 m (i + -1) (j + 0)) as [a2|]; [|discriminate].
  destruct (at2 m (i + -1) (j + 1)) as [a3|]; [|discriminate].
  destruct (at2 m (i + 0) (j + -1)) as [a4|]; [|discriminate].
  destruct (at2 m (i + 0) (j + 1)) as [a5|]; [|discriminate].
  destruct (at2 m (i + 1) (j + -1)) as [a6|]; [|discriminate].
  destruct (at2 m (i + 1) (j + 0)) as [a7|]; [|discriminate].
  destruct (at2 m (i + 1) (j + 1)) as [a8|] eqn:E8; [|discriminate].
  simpl in H. injection H as <-.
  apply at2_Some_inside in E1, E8. unfold inner. split; [lia | reflexivity].
Qed.

Lemma In_clears cfg (m : Mat Vec3f) i j p :
  In p (clears cfg m i j) ->
  exists v, at2 m i j = Some v /\ p = point_of v /\ valid_point p = true /\
            (clear_with_skipped_rays_ cfg = true \/ edge cfg m i j = false).
Proof.
  unfold clears. intros H.
  destruct (at2 m i j) as [v|]; [|destruct H].
  destruct (valid_point (point_of v)) eqn:Hp; simpl in H; [|destruct H].
  destruct (clear_with_skipped_rays_ cfg) eqn:Hc; simpl in H.
  - destruct H as [<-|[]]. eauto 10.
  - destruct (edge cfg m i j) eqn:He; simpl in H; [destruct H|].
    destruct H as [<-|[]]. eauto 10.
Qed.

Lemma In_marks cfg g (m : Mat Vec3f) i j p :
  In p (marks cfg g m i j) ->
  exists v qs, at2 m i j = Some v /\ p = point_of v /\ valid_point p = true /\
    edge cfg m i j = false /\ near_floor cfg g p = false /\
    neighbours m i j = Some qs /\ 7 <= support_count p qs.
Proof.
  unfold marks. intros H.
  destruct (at2 m i j) as [v|]; [|destruct H].
  destruct (neighbours m i j) as [qs|]; [|destruct H].
  destruct (valid_point (point_of v)) eqn:Hp; simpl in H; [|destruct H].
  destruct (edge cfg m i j) eqn:He; simpl in H; [destruct H|].
  destruct (near_floor cfg g (point_of v)) eqn:Hf; simpl in H; [destruct H|].
  destruct (7 <=? support_count (point_of v) qs) eqn:Hn; simpl in H;
    [|destruct H].
  destruct H as [<-|[]]. apply Z.leb_le in Hn. eauto 12.
Qed.

(** ** Claims C4 and C5 on the clouds of a frame *)

(** Every round of a loop that ran to its end had a result. *)
Lemma for_each_round_defined {S : Type} (body : Z -> S -> option S) :
  forall idx s s',
    for_each idx body s = Some s' ->
    forall k, In k idx -> exists t t', body k t = Some t'.
Proof.
  induction idx as [|k0 idx IH]; intros s s' Hrun k Hk; [destruct Hk|].
  simpl in Hrun. destruct (body k0 s) as [s1|] eqn:E; [|discriminate].
  destruct Hk as [<-|Hk]; [eauto | eapply IH; eauto].
Qed.

(** In a classified frame the round of every pixel had a result. *)
Lemma classify_round_defined cfg g (m : Mat Vec3f) st i j :
  classify cfg g m = Some st -> 0 <= i < rows m -> 0 <= j < cols m ->
  exists t t', body cfg g m i j t = Some t'.
Proof.
  intros Hrun Hi Hj. unfold classify in Hrun.
  destruct (for_each_round_defined _ _ _ _ Hrun i) as (t & t' & Hrow);
    [now apply In_upto|].
  destruct (for_each_round_defined _ _ _ _ Hrow j) as (u & u' & Hb);
    [now apply In_upto|].
  exists u, u'. exact Hb.
Qed.

(** The grid of [Demo.grid] with an invalid point at pixel (2, 1), and
    the defaults with a bottom margin of 5 rows and margins of one pixel
    on the other sides. *)
Definition grid_bottom_gap : Mat Vec3f :=
  mkMat 3 3 [Demo.v112; Demo.v112; Demo.v112;
             Demo.v112; Demo.v112; Demo.v112;
             Demo.v112; Demo.v000; Demo.v112] eq_refl.

Definition cfg_bottom5 : Config :=
  mkConfig false (observations_threshold_ default_config)
           true (ground_threshold_ default_config)
           false 5 1 1 1 false.

(** C4 (what the source does). On a grid of 3 rows with a bottom margin
    of 5 rows, pixel (1, 1) lies inside the bottom margin and skipped
    rays are not used for clearing; the boundary test does not skip the
    pixel, and the frame has its point in the clearing cloud and in the
    marking cloud. *)
Theorem oversized_bottom_margin_pixel_reaches_both_clouds :
  in_margin cfg_bottom5 (rows grid_bottom_gap) (cols grid_bottom_gap) 1 1 /\
  rows grid_bottom_gap - skip_rays_bottom_ cfg_bottom5 <= 1 /\
  clear_with_skipped_rays_ cfg_bottom5 = false /\
  at2 grid_bottom_gap 1 1 = Some Demo.v112 /\
  valid_point Demo.p112 = true /\
  edge cfg_bottom5 grid_bottom_gap 1 1 = false /\
  classify cfg_bottom5 Demo.plane_y3 grid_bottom_gap =
    Some (mkClouds [Demo.p112] [Demo.p112]).
Proof.
  split; [right; left; simpl; lia|].
  split; [simpl; lia|].
  repeat split; vm_compute; reflexivity.
Qed.

(** C5. In a classified frame, a valid point [p] of a pixel that passes
    the boundary test and is not near the floor has its eight neighbours
    in the grid, and
    - if at least 7 of them support [p], [p] is in the marking cloud of
      the frame;
    - if fewer do, the pixel gives the marking cloud nothing: [p] is in
      the marking cloud only if another pixel with the same point
      qualifies;
    - the round of the pixel appends [p] to the marking cloud exactly
      when at least 7 neighbours support it.
    A neighbour supports [p] when it passes the validity test and each
    of its coordinates is less than 0.1 away from that of [p]. *)
Theorem marking_by_neighbour_support (cfg : Config) (g : Vec4f) (m : Mat Vec3f)
    (st : clouds) (i j : Z) (v : Vec3f) :
  classify cfg g m = Some st ->
  at2 m i j = Some v -> valid_point (point_of v) = true ->
  edge cfg m i j = false -> near_floor cfg g (point_of v) = false ->
  exists qs,
    neighbours m i j = Some qs /\ length qs = 8%nat /\
    (7 <= support_count (point_of v) qs -> In (point_of v) (marking_points st)) /\
    (support_count (point_of v) qs < 7 ->
     In (point_of v) (marking_points st) ->
     exists i' j' v' qs',
       (i', j') <> (i, j) /\
       at2 m i' j' = Some v' /\ point_of v' = point_of v /\
       edge cfg m i' j' = false /\ near_floor cfg g (point_of v') = false /\
       neighbours m i' j' = Some qs' /\
       7 <= support_count (point_of v') qs') /\
    (forall t, exists t',
       body cfg g m i j t = Some t' /\
       (marking_points t' = marking_points t ++ [point_of v]
          <-> 7 <= support_count (point_of v) qs) /\
       (support_count (point_of v) qs < 7 ->
          marking_points t' = marking_points t)).
Proof.
  intros Hrun Hv Hp He Hf.
  destruct (at2_Some_inside m i j v Hv) as (Hi & Hj).
  destruct (classify_round_defined cfg g m st i j Hrun Hi Hj) as (t0 & t0' & Hb0).
  rewrite (body_obstacle cfg g m i j v) in Hb0 by assumption.
  destruct (neighbours m i j) as [qs|] eqn:Hn; [|discriminate].
  destruct (neighbours_Some_inner m i j qs Hn) as (_ & Hlen).
  destruct (classify_contributions cfg g m st Hrun) as (_ & Hm).
  exists qs. split; [reflexivity|]. split; [exact Hlen|].
  split; [|split].
  - intros Hs. rewrite Hm. apply in_flat_map. exists (i, j). split.
    + now apply In_pixels.
    + unfold marks. simpl. rewrite Hv, Hn, Hp, He, Hf.
      apply Z.leb_le in Hs. rewrite Hs. now left.
  - intros Hs Hin. rewrite Hm in Hin.
    apply in_flat_map in Hin as ([i' j'] & _ & Hin). simpl in Hin.
    apply In_marks in Hin as (v' & qs' & Hv' & Ep & _ & He' & Hf' & Hn' & Hs').
    exists i', j', v', qs'. rewrite <- Ep.
    repeat split; try assumption.
    intros E. injection E as -> ->.
    rewrite Hn in Hn'. injection Hn' as <-. lia.
  - intros t. rewrite (body_obstacle cfg g m i j v), Hn by assumption. simpl.
    eexists; split; [reflexivity|].
    destruct (7 <=? support_count (point_of v) qs) eqn:E; simpl.
    + apply Z.leb_le in E. repeat split; auto; lia.
    + apply Z.leb_gt in E. repeat split; auto; try lia.
      intros H. exfalso.
      apply (f_equal (@length _)) in H. rewrite length_app in H. simpl in H. lia.
Qed.

(** The centre of the 3x3 grid: 8 supporting neighbours, in the marking
    cloud of the frame. *)
Lemma marking_by_neighbour_support_witness :
  exists qs,
    neighbours Demo.grid 1 1 = Some qs /\ length qs = 8%nat /\
    (7 <= support_count (point_of Demo.v112) qs ->
     In (point_of Demo.v112)
        (marking_points (mkClouds [Demo.p112] [Demo.p112]))) /\
    (support_count (point_of Demo.v112) qs < 7 ->
     In (point_of Demo.v112)
        (marking_points (mkClouds [Demo.p112] [Demo.p112])) ->
     exists i' j' v' qs',
       (i', j') <> (1, 1) /\
       at2 Demo.grid i' j' = Some v' /\ point_of v' = point_of Demo.v112 /\
       edge Demo.cfg1 Demo.grid i' j' = false /\
       near_floor Demo.cfg1 Demo.plane_y3 (point_of v') = false /\
       neighbours Demo.grid i' j' = Some qs' /\
       7 <= support_count (point_of v') qs') /\
    (forall t, exists t',
       body Demo.cfg1 Demo.plane_y3 Demo.grid 1 1 t = Some t' /\
       (marking_points t' = marking_points t ++ [point_of Demo.v112]
          <-> 7 <= support_count (point_of Demo.v112) qs) /\
       (support_count (point_of Demo.v112) qs < 7 ->
          marking_points t' = marking_points t)).
Proof.
  apply (marking_by_neighbour_support Demo.cfg1 Demo.plane_y3 Demo.grid
           (mkClouds [Demo.p112] [Demo.p112]) 1 1 Demo.v112);
    vm_compute; reflexivity.
Defined.

(** A point without a supporting neighbour is not marked. *)
Example demo_lonely_support :
  neighbours Demo.lonely 1 1 = Some (repeat (point_of Demo.v000) 8) /\
  support_count Demo.p112 (repeat (point_of Demo.v000) 8) = 0 /\
  classify Demo.cfg1 Demo.plane_y3 Demo.lonely = Some (mkClouds [Demo.p112] []).
Proof. repeat split; vm_compute; reflexivity. Qed.

(** ** Extras on the classification of a frame *)

(** X1. No invalid point reaches a cloud: every point of the clearing
    cloud and of the marking cloud of a classified frame is the point of
    a pixel of the grid, and passes the validity test (no coordinate is
    zero or NaN). *)
Theorem cloud_points_are_valid_grid_points (cfg : Config) (g : Vec4f)
    (m : Mat Vec3f) (st : clouds) (p : Point32) :
  classify cfg g m = Some st ->
  In p (clearing_points st) \/ In p (marking_points st) ->
  valid_point p = true /\
  exists i j v, 0 <= i < rows m /\ 0 <= j < cols m /\
                at2 m i j = Some v /\ p = point_of v.
Proof.
  intros Hrun Hp.
  destruct (classify_contributions cfg g m st Hrun) as (Hc & Hm).
  rewrite Hc, Hm in Hp. rewrite !in_flat_map in Hp.
  destruct Hp as [([i j] & Hij & Hp) | ([i j] & Hij & Hp)];
    apply In_pixels in Hij; simpl in Hp.
  - apply In_clears in Hp as (v & Hv & -> & Hval & _).
    split; [exact Hval|]. exists i, j, v. tauto.
  - apply In_marks in Hp as (v & qs & Hv & -> & Hval & _).
    split; [exact Hval|]. exists i, j, v. tauto.
Qed.

Lemma cloud_points_are_valid_grid_points_witness :
  valid_point Demo.p112 = true /\
  exists i j v, 0 <= i < rows Demo.lonely /\ 0 <= j < cols Demo.lonely /\
                at2 Demo.lonely i j = Some v /\ Demo.p112 = point_of v.
Proof.
  apply (cloud_points_are_valid_grid_points Demo.cfg1 Demo.plane_y3 Demo.lonely
           (mkClouds [Demo.p112] []) Demo.p112);
    [vm_compute; reflexivity | left; left; reflexivity].
Defined.

(** X2. A point is in the marking cloud of a classified frame if and
    only if it is the valid point of a pixel that passed the boundary
    test, is not near the floor, has its eight neighbours inside the
    grid and is supported by at least 7 of them. *)
Theorem marking_points_provenance (cfg : Config) (g : Vec4f) (m : Mat Vec3f)
    (st : clouds) (p : Point32) :
  classify cfg g m = Some st ->
  (In p (marking_points st) <->
   exists i j v qs,
     at2 m i j = Some v /\ p = point_of v /\ valid_point p = true /\
     edge cfg m i j = false /\ near_floor cfg g p = false /\
     inner m i j /\ neighbours m i j = Some qs /\ length qs = 8%nat /\
     7 <= support_count p qs).
Proof.
  intros Hrun.
  destruct (classify_contributions cfg g m st Hrun) as (_ & Hm).
  rewrite Hm, in_flat_map. split.
  - intros ([i j] & _ & Hp). simpl in Hp.
    apply In_marks in Hp as (v & qs & Hv & -> & Hval & He & Hf & Hn & Hs).
    destruct (neighbours_Some_inner m i j qs Hn) as (Hin & Hlen).
    exists i, j, v, qs. tauto.
  - intros (i & j & v & qs & Hv & -> & Hval & He & Hf & _ & Hn & _ & Hs).
    exists (i, j). split.
    + apply In_pixels. eapply at2_Some_inside. exact Hv.
    + unfold marks. simpl. rewrite Hv, Hn, Hval, He, Hf.
      apply Z.leb_le in Hs. rewrite Hs. now left.
Qed.

Lemma marking_points_provenance_witness :
  In Demo.p112 (marking_points (mkClouds [Demo.p112] [Demo.p112])) <->
  exists i j v qs,
    at2 Demo.grid i j = Some v /\ Demo.p112 = point_of v /\
    valid_point Demo.p112 = true /\
    edge Demo.cfg1 Demo.grid i j = false /\
    near_floor Demo.cfg1 Demo.plane_y3 Demo.p112 = false /\
    inner Demo.grid i j /\ neighbours Demo.grid i j = Some qs /\
    length qs = 8%nat /\ 7 <= support_count Demo.p112 qs.
Proof.
  apply (marking_points_provenance Demo.cfg1 Demo.plane_y3 Demo.grid
           (mkClouds [Demo.p112] [Demo.p112]) Demo.p112).
  vm_compute. reflexivity.
Defined.

(** X18. A point is in the clearing cloud of a classified frame if and
    only if it is the valid point of a pixel of the grid that passed the
    boundary test, or of any pixel of the grid when skipped rays are
    used for clearing. *)
Theorem clearing_points_provenance (cfg : Config) (g : Vec4f) (m : Mat Vec3f)
    (st : clouds) (p : Point32) :
  classify cfg g m = Some st ->
  (In p (clearing_points st) <->
   exists i j v,
     at2 m i j = Some v /\ p = point_of v /\ valid_point p = true /\
     (clear_with_skipped_rays_ cfg = true \/ edge cfg m i j = false)).
Proof.
  intros Hrun.
  destruct (classify_contributions cfg g m st Hrun) as (Hc & _).
  rewrite Hc, in_flat_map. split.
  - intros ([i j] & _ & Hp). simpl in Hp.
    apply In_clears in Hp as (v & Hv & -> & Hval & Hpol).
    exists i, j, v. tauto.
  - intros (i & j & v & Hv & -> & Hval & Hpol).
    exists (i, j). split.
    + apply In_pixels. eapply at2_Some_inside. exact Hv.
    + unfold clears. simpl. rewrite Hv, Hval.
      destruct Hpol as [-> | ->]; simpl; rewrite ?orb_true_r; now left.
Qed.

Lemma clearing_points_provenance_witness :
  In Demo.p112 (clearing_points (mkClouds [Demo.p112] [Demo.p112])) <->
  exists i j v,
    at2 Demo.grid i j = Some v /\ Demo.p112 = point_of v /\
    valid_point Demo.p112 = true /\
    (clear_with_skipped_rays_ Demo.cfg1 = true \/
     edge Demo.cfg1 Demo.grid i j = false).
Proof.
  apply (clearing_points_provenance Demo.cfg1 Demo.plane_y3 Demo.grid
           (mkClouds [Demo.p112] [Demo.p112]) Demo.p112).
  vm_compute. reflexivity.
Defined.

(** X3. With [clear_with_skipped_rays] set, the clearing cloud of a
    classified frame is the list of the valid points of the grid, each
    once, in row-major order, whatever the margins and the ground
    plane. *)
Theorem clearing_with_skipped_rays_is_every_valid_point (cfg : Config)
    (g : Vec4f) (m : Mat Vec3f) (st : clouds) :
  clear_with_skipped_rays_ cfg = true ->
  classify cfg g m = Some st ->
  clearing_points st = List.filter valid_point (map point_of (data m)).
Proof.
  intros Hc Hrun.
  destruct (classify_contributions cfg g m st Hrun) as (-> & _).
  rewrite <- flat_map_filter.
  rewrite <- (pixels_flat_map
                (fun v => if valid_point (point_of v) then [point_of v] else [])).
  apply flat_map_ext. intros [i j]. unfold clears. simpl. rewrite Hc.
  destruct (at2 m i j); [|reflexivity]. now rewrite orb_true_l, andb_true_r.
Qed.

Lemma clearing_with_skipped_rays_is_every_valid_point_witness :
  clearing_points
    (mkClouds [Demo.p112; Demo.p112; Demo.p112; Demo.p112; Demo.p112;
               Demo.p112; Demo.p112; Demo.p112; Demo.p112] [Demo.p112]) =
  List.filter valid_point (map point_of (data Demo.grid)).
Proof.
  apply (clearing_with_skipped_rays_is_every_valid_point Demo.cfg1_clear
           Demo.plane_y3 Demo.grid); vm_compute; reflexivity.
Defined.

(** The boundary test, one comparison at a time. *)
Lemma edge_false_inv cfg (m : Mat Vec3f) i j :
  edge cfg m i j = false ->
  to_size_t (skip_rays_top_ cfg) <= i /\
  i < to_size_t (int_sub (rows m) (skip_rays_bottom_ cfg)) /\
  to_size_t (skip_rays_left_ cfg) <= j /\
  j < to_size_t (int_sub (cols m) (skip_rays_right_ cfg)).
Proof.
  unfold edge, skipped_ray. intros H.
  apply orb_false_elim in H as [H H4]. apply orb_false_elim in H as [H H3].
  apply orb_false_elim in H as [H1 H2].
  apply Z.ltb_ge in H1, H3. apply Z.leb_gt in H2, H4. auto.
Qed.

(** Margins of at least one pixel, the bottom one not larger than the
    top one and the right one not larger than the left one, keep the
    neighbourhood of every pixel that passes the boundary test inside the
    matrix, whatever the size of the matrix. *)
Lemma ordered_margins_keep_inner cfg (m : Mat Vec3f) i j :
  rows m < 2 ^ 31 -> cols m < 2 ^ 31 ->
  1 <= skip_rays_bottom_ cfg <= skip_rays_top_ cfg ->
  1 <= skip_rays_right_ cfg <= skip_rays_left_ cfg ->
  skip_rays_top_ cfg < 2 ^ 31 -> skip_rays_left_ cfg < 2 ^ 31 ->
  0 <= i < rows m -> 0 <= j < cols m ->
  edge cfg m i j = false -> inner m i j.
Proof.
  intros Hr Hc Hb Hrt Ht Hl Hi Hj He.
  apply edge_false_inv in He as (H1 & H2 & H3 & H4).
  rewrite to_size_t_small in H1, H3 by (int_bounds; lia).
  assert (Hbr : skip_rays_bottom_ cfg <= rows m) by lia.
  assert (Hrc : skip_rays_right_ cfg <= cols m) by lia.
  rewrite int_sub_small in H2, H4 by (int_bounds; lia).
  rewrite to_size_t_small in H2, H4 by (int_bounds; lia).
  unfold inner. lia.
Qed.

Lemma flat_map_all_nil {A B : Type} (f : A -> list B) (l : list A) :
  (forall a, In a l -> f a = []) -> flat_map f l = [].
Proof.
  induction l as [|a l IH]; intros H; simpl; [reflexivity|].
  rewrite (H a) by now left. apply IH. intros b Hb. apply H. now right.
Qed.

(** X4. If the boundary test skips every pixel of the grid, which is so
    when [skip_rays_top] is at least the number of rows or
    [skip_rays_left] at least the number of columns, the frame is
    classified without reading any neighbour: the marking cloud is empty,
    and so is the clearing cloud unless skipped rays are used for
    clearing. *)
Theorem fully_skipped_frame_marks_nothing (cfg : Config) (g : Vec4f)
    (m : Mat Vec3f) :
  rows m <= skip_rays_top_ cfg < 2 ^ 64 \/
  cols m <= skip_rays_left_ cfg < 2 ^ 64 ->
  (forall i j, 0 <= i < rows m -> 0 <= j < cols m -> edge cfg m i j = true) /\
  exists st, classify cfg g m = Some st /\
    marking_points st = [] /\
    (clear_with_skipped_rays_ cfg = false -> clearing_points st = []).
Proof.
  intros Hskip.
  assert (He : forall i j, 0 <= i < rows m -> 0 <= j < cols m ->
                           edge cfg m i j = true).
  { intros i j Hi Hj. unfold edge, skipped_ray.
    destruct Hskip as [H|H].
    - rewrite (to_size_t_small (skip_rays_top_ cfg)) by lia.
      replace (i <? skip_rays_top_ cfg) with true
        by (symmetry; apply Z.ltb_lt; lia). reflexivity.
    - rewrite (to_size_t_small (skip_rays_left_ cfg)) by lia.
      replace (j <? skip_rays_left_ cfg) with true
        by (symmetry; apply Z.ltb_lt; lia).
      now rewrite orb_true_r. }
  split; [exact He|].
  destruct (classify_defined cfg g m) as [st Hrun].
  { intros i j Hi Hj Hf. rewrite He in Hf by assumption. discriminate. }
  exists st. split; [exact Hrun|].
  destruct (classify_contributions cfg g m st Hrun) as (Hc & Hm).
  split.
  - rewrite Hm. apply flat_map_all_nil. intros [i j] Hij.
    apply In_pixels in Hij as (Hi & Hj). unfold marks. simpl.
    rewrite (He i j Hi Hj).
    destruct (at2 m i j), (neighbours m i j); try reflexivity.
    now rewrite andb_false_r.
  - intros Hcl. rewrite Hc. apply flat_map_all_nil. intros [i j] Hij.
    apply In_pixels in Hij as (Hi & Hj). unfold clears. simpl.
    rewrite (He i j Hi Hj), Hcl.
    destruct (at2 m i j); try reflexivity.
    now rewrite andb_false_r.
Qed.

(** The 3x3 grid under the default margins of 20 pixels. *)
Lemma fully_skipped_frame_marks_nothing_witness :
  (forall i j, 0 <= i < rows Demo.grid -> 0 <= j < cols Demo.grid ->
               edge default_config Demo.grid i j = true) /\
  exists st, classify default_config Demo.plane_y3 Demo.grid = Some st /\
    marking_points st = [] /\
    (clear_with_skipped_rays_ default_config = false -> clearing_points st = []).
Proof.
  apply (fully_skipped_frame_marks_nothing default_config Demo.plane_y3 Demo.grid).
  left. simpl. lia.
Defined.

(** X5. A bottom margin larger than the image skips no row: the
    difference [rows - skip_rays_bottom_] is negative and the comparison
    converts it to [size_t], so the boundary test is left with its three
    other comparisons. The same holds of a right margin larger than the
    image. *)
Theorem oversized_margin_skips_nothing (cfg : Config) (nrows ncols i j : Z) :
  0 <= i < nrows -> 0 <= j < ncols -> nrows < 2 ^ 31 -> ncols < 2 ^ 31 ->
  (nrows < skip_rays_bottom_ cfg < 2 ^ 31 ->
     skipped_ray cfg nrows ncols i j =
       (i <? to_size_t (skip_rays_top_ cfg)) ||
       (j <? to_size_t (skip_rays_left_ cfg)) ||
       (to_size_t (int_sub ncols (skip_rays_right_ cfg)) <=? j)) /\
  (ncols < skip_rays_right_ cfg < 2 ^ 31 ->
     skipped_ray cfg nrows ncols i j =
       (i <? to_size_t (skip_rays_top_ cfg)) ||
       (to_size_t (int_sub nrows (skip_rays_bottom_ cfg)) <=? i) ||
       (j <? to_size_t (skip_rays_left_ cfg))).
Proof.
  intros Hi Hj Hr Hc. unfold skipped_ray. split; intros Hb.
  - replace (to_size_t (int_sub nrows (skip_rays_bottom_ cfg)) <=? i) with false.
    + now rewrite orb_false_r.
    + symmetry. apply Z.leb_gt.
      rewrite int_sub_small by (int_bounds; lia).
      unfold to_size_t. int_bounds.
      replace (nrows - skip_rays_bottom_ cfg)
        with (nrows - skip_rays_bottom_ cfg + 18446744073709551616
              + (-1) * 18446744073709551616) by lia.
      rewrite Z.mod_add by lia. rewrite Z.mod_small; lia.
  - replace (to_size_t (int_sub ncols (skip_rays_right_ cfg)) <=? j) with false.
    + now rewrite orb_false_r.
    + symmetry. apply Z.leb_gt.
      rewrite int_sub_small by (int_bounds; lia).
      unfold to_size_t. int_bounds.
      replace (ncols - skip_rays_right_ cfg)
        with (ncols - skip_rays_right_ cfg + 18446744073709551616
              + (-1) * 18446744073709551616) by lia.
      rewrite Z.mod_add by lia. rewrite Z.mod_small; lia.
Qed.

Lemma oversized_margin_skips_nothing_witness :
  skipped_ray (mkConfig false d0_0 true d0_0 false 5 0 0 0 false) 3 3 1 1 =
    (1 <? to_size_t 0) || (1 <? to_size_t 0) || (to_size_t (int_sub 3 0) <=? 1).
Proof.
  apply (proj1 (oversized_margin_skips_nothing
                  (mkConfig false d0_0 true d0_0 false 5 0 0 0 false) 3 3 1 1
                  ltac:(lia) ltac:(lia) ltac:(int_bounds; lia)
                  ltac:(int_bounds; lia))).
  simpl. int_bounds. lia.
Defined.

(** X6. With margins of at least one pixel, the bottom one not larger
    than the top one and the right one not larger than the left one (the
    defaults, 20 each, are such), no call of the frame callback reads
    outside the point grid, whatever the size of the grid within the
    range of [int]. *)
Theorem ordered_margins_never_read_outside {PointCloud2 Image : Type}
    (env : Collaborators PointCloud2 Image) (cfg : Config)
    (K_ : option Matx33) (msg : Image) :
  (forall K image0, K_ = Some K -> toCvCopy env msg = Some image0 ->
     rows (depthTo3d env (prepare cfg image0) K) < 2 ^ 31 /\
     cols (depthTo3d env (prepare cfg image0) K) < 2 ^ 31) ->
  1 <= skip_rays_bottom_ cfg <= skip_rays_top_ cfg ->
  1 <= skip_rays_right_ cfg <= skip_rays_left_ cfg ->
  skip_rays_top_ cfg < 2 ^ 31 -> skip_rays_left_ cfg < 2 ^ 31 ->
  snd (depthImageCallback env cfg K_ msg) <> Undefined.
Proof.
  intros Hdims Hb Hr Ht Hl. unfold depthImageCallback.
  destruct K_ as [K|]; [|discriminate].
  destruct (toCvCopy env msg) as [image0|] eqn:Himg; [|discriminate].
  destruct (find_ground _ _ _ _ _ _) as [g|e]; [|discriminate].
  destruct (no_ground_plane g); [discriminate|].
  destruct (Hdims K image0 eq_refl eq_refl) as (Hrows & Hcols).
  destruct (classify_defined cfg g (depthTo3d env (prepare cfg image0) K))
    as [st ->]; [|discriminate].
  intros i j Hi Hj. now apply ordered_margins_keep_inner.
Qed.

(** A 3x3 image under the default margins. *)
Lemma ordered_margins_never_read_outside_witness :
  snd (depthImageCallback (demo_env true) default_config (Some Demo.K) Demo.msg)
    <> Undefined.
Proof.
  apply (ordered_margins_never_read_outside (demo_env true) default_config
           (Some Demo.K) Demo.msg); simpl; int_bounds; try lia.
  intros K image0 _ E. injection E as <-. simpl. lia.
Defined.

(** ** Extras on the trace of the frame callback *)

(** The calls made to the observation buffers, of either channel. *)
Definition buffer_events {PC2 : Type} (evs : list (event PC2)) : list (event PC2) :=
  List.filter
    (fun e =>
       match e with
       | BufLock _ | BufferCloud _ _ | BufUnlock _ => true
       | _ => false
       end) evs.

(** The cloud of a channel. *)
Definition channel_cloud (hdr : Header) (st : clouds) (ch : Channel) : PointCloud :=
  match ch with
  | Clearing => clearing_cloud hdr st
  | Marking => marking_cloud hdr st
  end.

Section Trace.
Context {PointCloud2 Image : Type}.
Variables (env : Collaborators PointCloud2 Image) (cfg : Config).

Lemma buffer_events_app (l1 l2 : list (event PointCloud2)) :
  buffer_events (l1 ++ l2) = buffer_events l1 ++ buffer_events l2.
Proof. apply List.filter_app. Qed.

(** The buffer calls of one block: none, or the three calls of its
    channel. *)
Lemma hand_off_buffer_events ch cloud :
  buffer_events (fst (hand_off env cfg ch cloud)) =
    match nonempty cloud, convertPointCloudToPointCloud2 env cloud with
    | true, Some cloud2 => buffer_of ch cloud2
    | _, _ => []
    end.
Proof.
  unfold hand_off, nonempty.
  destruct (0 <? length (points cloud))%nat; [|reflexivity].
  destruct (convertPointCloudToPointCloud2 env cloud);
    destruct (publish_observations_ cfg); reflexivity.
Qed.

(** Where an event of a block comes from. *)
Lemma hand_off_event ch cloud e ch' :
  In e (fst (hand_off env cfg ch cloud)) -> event_channel e = Some ch' ->
  ch' = ch /\ points cloud <> [] /\
  ((e = Publish ch cloud /\ publish_observations_ cfg = true) \/
   (exists cloud2, convertPointCloudToPointCloud2 env cloud = Some cloud2 /\
      (e = BufLock ch \/ e = BufferCloud ch cloud2 \/ e = BufUnlock ch))).
Proof.
  intros He Hch.
  destruct (points cloud) as [|p ps] eqn:Hp.
  { rewrite hand_off_empty in He by assumption. destruct He. }
  unfold hand_off in He. rewrite Hp in He. simpl in He.
  assert (Hne : p :: ps <> []) by discriminate.
  destruct (publish_observations_ cfg) eqn:Hpub,
           (convertPointCloudToPointCloud2 env cloud) as [c2|] eqn:Hconv;
    simpl in He;
    repeat match goal with
    | H : _ \/ _ |- _ => destruct H as [H|H]
    | H : False |- _ => destruct H
    end; subst e; simpl in Hch; try discriminate;
    injection Hch as <-;
    (split; [reflexivity|]; split; [exact Hne|];
     first [ left; split; reflexivity
           | right; exists c2; split; [reflexivity|]; tauto ]).
Qed.

End Trace.

(** X7. On every path of the frame callback the calls to the observation
    buffers are bracketed: none at all, or lock, bufferCloud, unlock of
    the clearing buffer, or of the marking buffer, or of the clearing
    buffer followed by the marking buffer. No path leaves a buffer
    locked, locks one twice or buffers a cloud outside a lock. *)
Theorem buffer_calls_are_bracketed {PointCloud2 Image : Type}
    (env : Collaborators PointCloud2 Image) (cfg : Config)
    (K_ : option Matx33) (msg : Image) :
  let evs := buffer_events (fst (depthImageCallback env cfg K_ msg)) in
  evs = [] \/
  (exists c, evs = [BufLock Clearing; BufferCloud Clearing c; BufUnlock Clearing]) \/
  (exists c, evs = [BufLock Marking; BufferCloud Marking c; BufUnlock Marking]) \/
  (exists c c',
     evs = [BufLock Clearing; BufferCloud Clearing c; BufUnlock Clearing;
            BufLock Marking; BufferCloud Marking c'; BufUnlock Marking]).
Proof.
  cbv zeta. unfold depthImageCallback.
  destruct K_ as [K|]; [|now left].
  destruct (toCvCopy env msg) as [image0|]; [|now left].
  destruct (find_ground _ _ _ _ _ _) as [g|e]; [|now left].
  destruct (no_ground_plane g); [now left|].
  destruct (classify _ _ _) as [st|]; [|now left].
  simpl fst. rewrite deliver_blocks, buffer_events_app, hand_off_buffer_events.
  rewrite hand_off_goes_on.
  destruct (nonempty (clearing_cloud (msg_header env msg) st)),
           (convertPointCloudToPointCloud2 env
              (clearing_cloud (msg_header env msg) st)) as [c|];
    try rewrite hand_off_buffer_events;
    destruct (nonempty (marking_cloud (msg_header env msg) st)),
             (convertPointCloudToPointCloud2 env
                (marking_cloud (msg_header env msg) st)) as [c'|];
    simpl; eauto 6.
Qed.

(** X8. Whatever the frame callback publishes or hands to a buffer comes
    from a frame that went through the whole pipeline: the intrinsics
    were there, the image was decoded, the ground plane was found and is
    not the zero plane, and the classification has a result; the cloud
    is the non-empty cloud of the event's channel with the header of the
    message; a publication needs [publish_observations], a buffer call a
    successful conversion. *)
Theorem events_come_from_classified_frame {PointCloud2 Image : Type}
    (env : Collaborators PointCloud2 Image) (cfg : Config)
    (K_ : option Matx33) (msg : Image) (e : event PointCloud2) (ch : Channel) :
  In e (fst (depthImageCallback env cfg K_ msg)) ->
  event_channel e = Some ch ->
  exists K image0 g st,
    K_ = Some K /\ toCvCopy env msg = Some image0 /\
    frame_ground env cfg K msg image0 = inl g /\ no_ground_plane g = false /\
    classify cfg g (depthTo3d env (prepare cfg image0) K) = Some st /\
    let cloud := channel_cloud (msg_header env msg) st ch in
    points cloud <> [] /\
    ((e = Publish ch cloud /\ publish_observations_ cfg = true) \/
     (exists cloud2, convertPointCloudToPointCloud2 env cloud = Some cloud2 /\
        (e = BufLock ch \/ e = BufferCloud ch cloud2 \/ e = BufUnlock ch))).
Proof.
  intros He Hch. unfold depthImageCallback in He.
  destruct K_ as [K|];
    [|simpl in He; destruct He as [<-|[]]; discriminate].
  destruct (toCvCopy env msg) as [image0|] eqn:Himg;
    [|simpl in He; destruct He as [<-|[]]; discriminate].
  destruct (find_ground env cfg (frame_id (msg_header env msg))
              (prepare cfg image0) K (depthTo3d env (prepare cfg image0) K))
    as [g|ex] eqn:Hg; [|destruct He].
  destruct (no_ground_plane g) eqn:Hz;
    [simpl in He; destruct He as [<-|[]]; discriminate|].
  destruct (classify cfg g (depthTo3d env (prepare cfg image0) K))
    as [st|] eqn:Hc; [|destruct He].
  simpl fst in He. rewrite deliver_blocks in He.
  exists K, image0, g, st.
  repeat (split; [reflexivity || assumption|]).
  apply in_app_or in He as [He|He].
  - destruct (hand_off_event env cfg Clearing _ e ch He Hch) as (-> & Hne & Hev).
    split; assumption.
  - destruct (snd (hand_off env cfg Clearing
                     (clearing_cloud (msg_header env msg) st))); [|destruct He].
    destruct (hand_off_event env cfg Marking _ e ch He Hch) as (-> & Hne & Hev).
    split; assumption.
Qed.

Lemma events_come_from_classified_frame_witness :
  exists K image0 g st,
    Some Demo.K = Some K /\ toCvCopy (demo_env true) Demo.msg = Some image0 /\
    frame_ground (demo_env true) Demo.cfg1 K Demo.msg image0 = inl g /\
    no_ground_plane g = false /\
    classify Demo.cfg1 g
      (depthTo3d (demo_env true) (prepare Demo.cfg1 image0) K) = Some st /\
    let cloud := channel_cloud (msg_header (demo_env true) Demo.msg) st Marking in
    points cloud <> [] /\
    ((BufferCloud Marking (mkPointCloud Demo.hdr [demo_centre]) =
        Publish Marking cloud /\ publish_observations_ Demo.cfg1 = true) \/
     (exists cloud2,
        convertPointCloudToPointCloud2 (demo_env true) cloud = Some cloud2 /\
        (BufferCloud Marking (mkPointCloud Demo.hdr [demo_centre]) = BufLock Marking \/
         BufferCloud Marking (mkPointCloud Demo.hdr [demo_centre]) =
           BufferCloud Marking cloud2 \/
         BufferCloud Marking (mkPointCloud Demo.hdr [demo_centre]) =
           BufUnlock Marking))).
Proof.
  apply (events_come_from_classified_frame (demo_env true) Demo.cfg1
           (Some Demo.K) Demo.msg
           (BufferCloud Marking (mkPointCloud Demo.hdr [demo_centre])) Marking);
    [vm_compute; tauto | reflexivity].
Defined.

(** ** Extras on the intrinsics *)

(** A camera info the callback accepts. *)
Definition accepted (msg : CameraInfo) : bool := binning_x msg =? binning_y msg.

(** [K_] after a sequence of camera infos, each handled by
    [cameraInfoCallback]. *)
Definition after_infos {PointCloud2 : Type} (K_ : option Matx33)
    (msgs : list CameraInfo) : option Matx33 :=
  fold_left (fun K msg => fst (cameraInfoCallback (PointCloud2 := PointCloud2) K msg))
            msgs K_.

(** The last accepted camera info of a sequence. *)
Definition last_accepted (msgs : list CameraInfo) : option CameraInfo :=
  List.find accepted (rev msgs).

Section Intrinsics.
Context {PointCloud2 : Type}.

Lemma cameraInfoCallback_rejected (K_ : option Matx33) msg :
  accepted msg = false ->
  fst (cameraInfoCallback (PointCloud2 := PointCloud2) K_ msg) = K_.
Proof. unfold accepted, cameraInfoCallback. now intros ->. Qed.

Lemma cameraInfoCallback_accepted (K_ K' : option Matx33) msg :
  accepted msg = true ->
  fst (cameraInfoCallback (PointCloud2 := PointCloud2) K_ msg) =
  fst (cameraInfoCallback (PointCloud2 := PointCloud2) K' msg).
Proof.
  unfold accepted, cameraInfoCallback. intros ->.
  destruct (0 <? binning_x msg); reflexivity.
Qed.

Lemma after_infos_snoc (K_ : option Matx33) msgs msg :
  after_infos (PointCloud2 := PointCloud2) K_ (msgs ++ [msg]) =
  fst (cameraInfoCallback (PointCloud2 := PointCloud2)
         (after_infos (PointCloud2 := PointCloud2) K_ msgs) msg).
Proof. unfold after_infos. now rewrite fold_left_app. Qed.

(** Rejected camera infos leave [K_] as it was. *)
Lemma after_infos_rejected (K_ : option Matx33) msgs :
  (forall msg, In msg msgs -> accepted msg = false) ->
  after_infos (PointCloud2 := PointCloud2) K_ msgs = K_.
Proof.
  revert K_. induction msgs as [|msg msgs IH]; intros K_ H; [reflexivity|].
  simpl. change (after_infos (PointCloud2 := PointCloud2)
                   (fst (cameraInfoCallback (PointCloud2 := PointCloud2) K_ msg))
                   msgs = K_).
  rewrite cameraInfoCallback_rejected by (apply H; now left).
  apply IH. intros m Hm. apply H. now right.
Qed.

End Intrinsics.

(** X9. Latest accepted wins: after any sequence of camera infos, [K_]
    is the matrix of the last one with equal binning factors, whatever
    came before it and whatever was rejected after it; when none was
    accepted, [K_] is what it was before the sequence. *)
Theorem last_accepted_info_wins {PointCloud2 : Type} (K_ : option Matx33)
    (msgs : list CameraInfo) :
  after_infos (PointCloud2 := PointCloud2) K_ msgs =
    match last_accepted msgs with
    | Some msg => fst (cameraInfoCallback (PointCloud2 := PointCloud2) None msg)
    | None => K_
    end.
Proof.
  induction msgs as [|msg msgs IH] using rev_ind; [reflexivity|].
  rewrite after_infos_snoc. unfold last_accepted in *.
  rewrite rev_app_distr. simpl.
  destruct (accepted msg) eqn:E.
  - apply cameraInfoCallback_accepted. exact E.
  - rewrite cameraInfoCallback_rejected by exact E. exact IH.
Qed.

(** X10. The matrix stored from the start of the layer has no skew, the
    same focal length on both axes (entry 5 of [P] is never read) and
    the last row (0, 0, 1): after any sequence of camera infos [K_] is
    empty or of that form. *)
Theorem stored_intrinsics_shape {PointCloud2 : Type} (msgs : list CameraInfo) :
  match after_infos (PointCloud2 := PointCloud2) None msgs with
  | None => forall msg, In msg msgs -> binning_x msg <> binning_y msg
  | Some K =>
      k00 K = k11 K /\
      k01 K = d0_0 /\ k10 K = d0_0 /\ k20 K = d0_0 /\ k21 K = d0_0 /\
      k22 K = d1_0
  end.
Proof.
  induction msgs as [|msg msgs IH] using rev_ind; [intros msg []|].
  rewrite after_infos_snoc.
  destruct (accepted msg) eqn:E.
  - unfold cameraInfoCallback. unfold accepted in E. rewrite E.
    destruct (0 <? binning_x msg); simpl; auto 10.
  - rewrite cameraInfoCallback_rejected by exact E.
    destruct (after_infos None msgs) as [K|]; [exact IH|].
    intros m Hm. apply in_app_or in Hm as [Hm|[<-|[]]]; [now apply IH|].
    unfold accepted in E. now apply Z.eqb_neq.
Qed.

(** X11. A layer that has received only camera infos with unequal
    binning factors is still not ready: every depth frame is skipped
    with the debug line and nothing else. *)
Theorem rejected_infos_keep_layer_not_ready {PointCloud2 Image : Type}
    (env : Collaborators PointCloud2 Image) (cfg : Config)
    (msgs : list CameraInfo) (msg : Image) :
  (forall info, In info msgs -> binning_x info <> binning_y info) ->
  depthImageCallback env cfg (after_infos (PointCloud2 := PointCloud2) None msgs) msg =
    ([RosDebug "Camera info not yet received."], Returned).
Proof.
  intros H. rewrite after_infos_rejected; [reflexivity|].
  intros info Hin. unfold accepted. apply Z.eqb_neq. now apply H.
Qed.

Lemma rejected_infos_keep_layer_not_ready_witness :
  depthImageCallback (demo_env true) Demo.cfg1
    (after_infos (PointCloud2 := PointCloud) None
       [mkCameraInfo demo_P 2 1; mkCameraInfo demo_P 1 2]) Demo.msg =
    ([RosDebug "Camera info not yet received."], Returned).
Proof.
  apply (rejected_infos_keep_layer_not_ready (demo_env true) Demo.cfg1
           [mkCameraInfo demo_P 2 1; mkCameraInfo demo_P 1 2] Demo.msg).
  intros info [<-|[<-|[]]]; discriminate.
Defined.

Example demo_last_accepted :
  after_infos (PointCloud2 := PointCloud) (Some Demo.K)
    [mkCameraInfo demo_P 0 0; mkCameraInfo demo_P 2 2; mkCameraInfo demo_P 2 1] =
  Some (camera_matrix (Demo.f 277) (Demo.f 160) (Demo.f 120)).
Proof. vm_compute. reflexivity. Qed.

(** ** Extras on the depth image and the ground plane *)

(** X12. Clearing NaNs twice is clearing them once, and an image
    without NaN goes through unchanged, with or without [clear_nans]:
    the preparation of the image keeps its shape and only ever rewrites
    NaN samples. *)
Theorem prepare_is_idempotent (cfg : Config) (image : Mat float32) :
  data (prepare cfg (prepare cfg image)) = data (prepare cfg image) /\
  length (data (prepare cfg image)) = length (data image) /\
  ((forall d, In d (data image) -> isnan d = false) ->
   data (prepare cfg image) = data image).
Proof.
  unfold prepare. destruct (clear_nans_ cfg); [|auto].
  destruct (clear_nans_loop_data image) as (_ & _ & Hd).
  destruct (clear_nans_loop_data (clear_nans_loop image)) as (_ & _ & Hd2).
  rewrite Hd2, Hd. repeat split.
  - rewrite <- list_fmap_compose. apply list_fmap_ext. intros _ d _. simpl.
    unfold cleared at 1. now rewrite cleared_not_nan.
  - apply length_fmap.
  - intros Hn. rewrite <- (list_fmap_id (data image)) at 2.
    apply list_fmap_ext. intros i d Hi. unfold cleared.
    rewrite Hn; [reflexivity|].
    apply list_elem_of_In. eapply list_elem_of_lookup_2. exact Hi.
Qed.

(** X13. The loop over the candidate planes takes the first candidate
    that passes the orientation test: either no candidate passes and the
    plane keeps its initial value, or the candidates split into a prefix
    of failing ones, the chosen candidate, which passes, and a rest that
    is not looked at. *)
Theorem select_ground_takes_first_oriented (cfg : Config) (cands : list Vec4f)
    (initial : Vec4f) :
  ((forall c, In c cands -> ground_oriented cfg c = false) /\
   select_ground cfg cands initial = initial) \/
  (exists before c rest,
     cands = before ++ c :: rest /\
     (forall c', In c' before -> ground_oriented cfg c' = false) /\
     ground_oriented cfg c = true /\
     select_ground cfg cands initial = c).
Proof.
  induction cands as [|c cands IH]; [left; split; [intros c []|reflexivity]|].
  simpl. destruct (ground_oriented cfg c) eqn:E.
  - right. exists [], c, cands. repeat split; auto. intros c' [].
  - destruct IH as [(Hall & Hsel) | (before & c1 & rest & -> & Hb & Hc & Hsel)].
    + left. split; [|exact Hsel]. intros c' [<-|Hc']; auto.
    + right. exists (c :: before), c1, rest. repeat split; auto.
      intros c' [<-|Hc']; auto.
Qed.

(** X14. In the mode that estimates the plane from the image, a frame
    none of whose candidate planes passes the orientation test (no
    candidate at all included) is dropped with the debug line "Invalid
    ground plane.": nothing is classified, published or buffered. *)
Theorem no_oriented_candidate_drops_frame {PointCloud2 Image : Type}
    (env : Collaborators PointCloud2 Image) (cfg : Config)
    (K : Matx33) (msg : Image) (image0 : Mat float32) :
  toCvCopy env msg = Some image0 ->
  find_ground_plane_ cfg = true ->
  (forall c,
     In c (find_planes env (prepare cfg image0) K
             (depthTo3d env (prepare cfg image0) K)) ->
     ground_oriented cfg c = false) ->
  depthImageCallback env cfg (Some K) msg =
    ([RosDebug "Invalid ground plane."], Returned).
Proof.
  intros Himg Hmode Hc. unfold depthImageCallback, find_ground.
  rewrite Himg, Hmode, select_ground_none by exact Hc. reflexivity.
Qed.

(** A candidate whose normal points along +y does not pass the test. *)
Lemma no_oriented_candidate_drops_frame_witness :
  depthImageCallback
    (Demo.env [mkVec4f (Demo.f 0) (Demo.f 1) (Demo.f 0) (Demo.f 1)]
              (inr LookupException) (inr LookupException) true)
    Demo.cfg1 (Some Demo.K) Demo.msg =
    ([RosDebug "Invalid ground plane."], Returned).
Proof.
  apply (no_oriented_candidate_drops_frame _ Demo.cfg1 Demo.K Demo.msg
           Demo.depth3x3); [reflexivity | reflexivity |].
  intros c [<-|[]]. vm_compute. reflexivity.
Defined.

(** ** onInitialize *)

(** The parameter server under the private namespace of the layer
    ([~/name_]): what [getParam] finds for a name, by the type of the
    variable [param] fills; [None] when it finds nothing, and [param]
    then stores its default. *)
Record ParamServer := mkParamServer {
  get_bool : string -> option bool;
  get_double : string -> option float64;
  get_int : string -> option Z;
  get_string : string -> option string
}.

(** [private_nh.param(name, variable, default)]. *)
Definition param {A : Type} (get : string -> option A) (name : string)
    (default : A) : A :=
  match get name with
  | Some value => value
  | None => default
  end.

(** The arguments of the constructor of an observation buffer that
    [onInitialize] chooses ([tf_] and [global_frame_] are inherited from
    the parent layer). *)
Record ObservationBuffer := mkObservationBuffer {
  buf_topic : string;
  buf_observation_keep_time : float64;
  buf_expected_update_rate : float64;
  buf_min_height : float64;
  buf_max_height : float64;
  buf_obstacle_range : float64;
  buf_raytrace_range : float64;
  buf_sensor_frame : string;
  buf_transform_tolerance : float64
}.

Inductive Callback := CameraInfoCallback | DepthImageCallback.

(** What [onInitialize] does besides filling the member variables. *)
Inductive setup :=
| ParentOnInitialize
| PushMarkingBuffer (buf : ObservationBuffer)
| PushClearingBuffer (buf : ObservationBuffer)
| Advertise (topic : string) (queue : Z)
| Subscribe (topic : string) (queue : Z) (cb : Callback).

(** The literals 0.5, 2.5, 3.0, 2.0, 0.06 and 0.9 as doubles. *)
Definition d0_5 : float64 := S754_finite false 4503599627370496 (-53).
Definition d2_5 : float64 := S754_finite false 5629499534213120 (-51).
Definition d3_0 : float64 := double_of_Z 3.
Definition d2_0 : float64 := double_of_Z 2.
Definition d0_06 : float64 := S754_finite false 8646911284551352 (-57).
Definition d0_9 : float64 := S754_finite false 8106479329266893 (-53).
Definition infinity : float64 := S754_infinity false.
Definition neg_infinity : float64 := S754_infinity true.

Definition onInitialize (ps : ParamServer) : Config * list setup :=
  let observation_keep_time := d0_0 in
  let expected_update_rate := d0_0 in
  let transform_tolerance := d0_5 in
  let obstacle_range := d2_5 in
  let raytrace_range := d3_0 in
  let topic := EmptyString in
  let sensor_frame := EmptyString in
  let publish_observations_ := param (get_bool ps) "publish_observations" false in
  let observations_threshold_ :=
    param (get_double ps) "observations_separation_threshold" d0_06 in
  let find_ground_plane_ := param (get_bool ps) "find_ground_plane" true in
  let ground_threshold_ := param (get_double ps) "ground_orientation_threshold" d0_9 in
  let clear_nans_ := param (get_bool ps) "clear_nans" false in
  let min_obstacle_height := param (get_double ps) "min_obstacle_height" d0_0 in
  let max_obstacle_height := param (get_double ps) "max_obstacle_height" d2_0 in
  let min_clearing_height := param (get_double ps) "min_clearing_height" neg_infinity in
  let max_clearing_height := param (get_double ps) "max_clearing_height" infinity in
  let skip_rays_bottom_ := param (get_int ps) "skip_rays_bottom" 20 in
  let skip_rays_top_ := param (get_int ps) "skip_rays_top" 20 in
  let skip_rays_left_ := param (get_int ps) "skip_rays_left" 20 in
  let skip_rays_right_ := param (get_int ps) "skip_rays_right" 20 in
  let clear_with_skipped_rays_ :=
    param (get_bool ps) "clear_with_skipped_rays" false in
  let marking_buf_ :=
    mkObservationBuffer topic observation_keep_time expected_update_rate
      min_obstacle_height max_obstacle_height obstacle_range raytrace_range
      sensor_frame transform_tolerance in
  let min_obstacle_height := d0_0 in
  let clearing_buf_ :=
    mkObservationBuffer topic observation_keep_time expected_update_rate
      min_clearing_height max_clearing_height obstacle_range raytrace_range
      sensor_frame transform_tolerance in
  let camera_depth_topic :=
    param (get_string ps) "depth_topic" "/head_camera/depth_downsample/image_raw"%string in
  let camera_info_topic :=
    param (get_string ps) "info_topic" "/head_camera/depth_downsample/camera_info"%string in
  (mkConfig publish_observations_ observations_threshold_ find_ground_plane_
            ground_threshold_ clear_nans_ skip_rays_bottom_ skip_rays_top_
            skip_rays_left_ skip_rays_right_ clear_with_skipped_rays_,
   [ParentOnInitialize; PushMarkingBuffer marking_buf_;
    PushClearingBuffer clearing_buf_] ++
   (if publish_observations_
    then [Advertise "clearing_obs" 1; Advertise "marking_obs" 1] else []) ++
   [Subscribe camera_info_topic 10 CameraInfoCallback;
    Subscribe camera_depth_topic 10 DepthImageCallback]).

(** The topic a channel is published on. *)
Definition channel_topic (ch : Channel) : string :=
  match ch with
  | Clearing => "clearing_obs"
  | Marking => "marking_obs"
  end.

Example literals_of_onInitialize :
  d0_5 = SFdiv prec64 emax64 (double_of_Z 1) (double_of_Z 2) /\
  d2_5 = SFdiv prec64 emax64 (double_of_Z 5) (double_of_Z 2) /\
  d0_06 = SFdiv prec64 emax64 (double_of_Z 6) (double_of_Z 100) /\
  d0_9 = SFdiv prec64 emax64 (double_of_Z 9) (double_of_Z 10).
Proof. repeat split; vm_compute; reflexivity. Qed.

(** The frame callback publishes only under [publish_observations_]. *)
Lemma callback_publishes_when_configured {PointCloud2 Image : Type}
    (env : Collaborators PointCloud2 Image) (cfg : Config)
    (K_ : option Matx33) (msg : Image) (ch : Channel) (cloud : PointCloud) :
  In (Publish ch cloud) (fst (depthImageCallback env cfg K_ msg)) ->
  publish_observations_ cfg = true.
Proof.
  intros He. unfold depthImageCallback in He.
  destruct K_ as [K|]; [|simpl in He; destruct He as [E|[]]; discriminate].
  destruct (toCvCopy env msg) as [image0|];
    [|simpl in He; destruct He as [E|[]]; discriminate].
  destruct (find_ground _ _ _ _ _ _) as [g|ex]; [|destruct He].
  destruct (no_ground_plane g);
    [simpl in He; destruct He as [E|[]]; discriminate|].
  destruct (classify _ _ _) as [st|]; [|destruct He].
  simpl fst in He. rewrite deliver_blocks in He.
  apply in_app_or in He as [He|He].
  - destruct (hand_off_event env cfg Clearing _ _ ch He eq_refl)
      as (_ & _ & [(_ & Hp) | (c2 & _ & [E|[E|E]])]);
      [exact Hp | discriminate..].
  - destruct (snd (hand_off env cfg Clearing _)); [|destruct He].
    destruct (hand_off_event env cfg Marking _ _ ch He eq_refl)
      as (_ & _ & [(_ & Hp) | (c2 & _ & [E|[E|E]])]);
      [exact Hp | discriminate..].
Qed.

(** ** Extras on the initialisation *)

(** X15. A parameter that is not set takes its default: on a parameter
    server that holds none of the layer's parameters, [onInitialize]
    yields the default configuration (thresholds 0.06 and 0.9, plane
    estimation on, margins of 20 pixels, no publication, NaNs and
    skipped rays not used for clearing), a marking buffer for heights 0
    to 2 and a clearing buffer for all heights, advertises nothing and
    subscribes to the two default topics. *)
Theorem unset_parameters_take_defaults (ps : ParamServer) :
  (forall name, get_bool ps name = None) ->
  (forall name, get_double ps name = None) ->
  (forall name, get_int ps name = None) ->
  (forall name, get_string ps name = None) ->
  fst (onInitialize ps) = default_config /\
  snd (onInitialize ps) =
    [ParentOnInitialize;
     PushMarkingBuffer
       (mkObservationBuffer "" d0_0 d0_0 d0_0 d2_0 d2_5 d3_0 "" d0_5);
     PushClearingBuffer
       (mkObservationBuffer "" d0_0 d0_0 neg_infinity infinity d2_5 d3_0 "" d0_5);
     Subscribe "/head_camera/depth_downsample/camera_info" 10 CameraInfoCallback;
     Subscribe "/head_camera/depth_downsample/image_raw" 10 DepthImageCallback].
Proof.
  intros Hb Hd Hi Hs. unfold onInitialize, param.
  rewrite !Hb, !Hd, !Hi, !Hs. split; reflexivity.
Qed.

Definition empty_server : ParamServer :=
  mkParamServer (fun _ => None) (fun _ => None) (fun _ => None) (fun _ => None).

Lemma unset_parameters_take_defaults_witness :
  fst (onInitialize empty_server) = default_config /\
  snd (onInitialize empty_server) =
    [ParentOnInitialize;
     PushMarkingBuffer
       (mkObservationBuffer "" d0_0 d0_0 d0_0 d2_0 d2_5 d3_0 "" d0_5);
     PushClearingBuffer
       (mkObservationBuffer "" d0_0 d0_0 neg_infinity infinity d2_5 d3_0 "" d0_5);
     Subscribe "/head_camera/depth_downsample/camera_info" 10 CameraInfoCallback;
     Subscribe "/head_camera/depth_downsample/image_raw" 10 DepthImageCallback].
Proof.
  apply (unset_parameters_take_defaults empty_server); reflexivity.
Defined.

(** X16. The frame callback never publishes on a publisher that
    [onInitialize] did not advertise: with the configuration read by
    [onInitialize], a cloud published for a channel means that the topic
    of that channel was advertised. *)
Theorem publications_need_advertised_topics {PointCloud2 Image : Type}
    (ps : ParamServer) (env : Collaborators PointCloud2 Image)
    (K_ : option Matx33) (msg : Image) (ch : Channel) (cloud : PointCloud) :
  In (Publish ch cloud)
     (fst (depthImageCallback env (fst (onInitialize ps)) K_ msg)) ->
  In (Advertise (channel_topic ch) 1) (snd (onInitialize ps)).
Proof.
  intros He. apply callback_publishes_when_configured in He.
  unfold onInitialize in *. simpl in *. rewrite He.
  destruct ch; simpl; tauto.
Qed.

Definition publishing_server : ParamServer :=
  mkParamServer
    (fun name => if String.eqb name "publish_observations" then Some true else None)
    (fun _ => None)
    (fun name => if String.eqb name "skip_rays_top" then Some 1
                 else if String.eqb name "skip_rays_bottom" then Some 1
                 else if String.eqb name "skip_rays_left" then Some 1
                 else if String.eqb name "skip_rays_right" then Some 1
                 else None)
    (fun _ => None).

Example demo_publishing_frame :
  fst (depthImageCallback (demo_env true) (fst (onInitialize publishing_server))
         (Some Demo.K) Demo.msg) =
    [Publish Clearing (mkPointCloud Demo.hdr [demo_centre]);
     BufLock Clearing;
     BufferCloud Clearing (mkPointCloud Demo.hdr [demo_centre]);
     BufUnlock Clearing;
     Publish Marking (mkPointCloud Demo.hdr [demo_centre]);
     BufLock Marking;
     BufferCloud Marking (mkPointCloud Demo.hdr [demo_centre]);
     BufUnlock Marking].
Proof. vm_compute. reflexivity. Qed.

Lemma publications_need_advertised_topics_witness :
  In (Advertise (channel_topic Marking) 1) (snd (onInitialize publishing_server)).
Proof.
  apply (publications_need_advertised_topics publishing_server (demo_env true)
           (Some Demo.K) Demo.msg Marking (mkPointCloud Demo.hdr [demo_centre])).
  vm_compute. tauto.
Defined.

(** X17. A layer initialised without the four margin parameters never
    reads outside the point grid, whatever else the parameter server
    holds and whatever the size of the grid within the range of
    [int]. *)
Theorem unset_margins_never_read_outside {PointCloud2 Image : Type}
    (ps : ParamServer) (env : Collaborators PointCloud2 Image)
    (K_ : option Matx33) (msg : Image) :
  get_int ps "skip_rays_bottom" = None -> get_int ps "skip_rays_top" = None ->
  get_int ps "skip_rays_left" = None -> get_int ps "skip_rays_right" = None ->
  (forall K image0, K_ = Some K -> toCvCopy env msg = Some image0 ->
     let m := depthTo3d env (prepare (fst (onInitialize ps)) image0) K in
     rows m < 2 ^ 31 /\ cols m < 2 ^ 31) ->
  snd (depthImageCallback env (fst (onInitialize ps)) K_ msg) <> Undefined.
Proof.
  intros Hb Ht Hl Hr Hdims.
  set (cfg := fst (onInitialize ps)) in *.
  assert (Hm : skip_rays_bottom_ cfg = 20 /\ skip_rays_top_ cfg = 20 /\
               skip_rays_left_ cfg = 20 /\ skip_rays_right_ cfg = 20).
  { unfold cfg, onInitialize, param. simpl. now rewrite Hb, Ht, Hl, Hr. }
  destruct Hm as (Eb & Et & El & Er).
  unfold depthImageCallback.
  destruct K_ as [K|]; [|discriminate].
  destruct (toCvCopy env msg) as [image0|] eqn:Himg; [|discriminate].
  destruct (find_ground _ _ _ _ _ _) as [g|e]; [|discriminate].
  destruct (no_ground_plane g); [discriminate|].
  destruct (Hdims K image0 eq_refl eq_refl) as (Hrows & Hcols).
  destruct (classify_defined cfg g (depthTo3d env (prepare cfg image0) K))
    as [st ->]; [|discriminate].
  intros i j Hi Hj.
  apply ordered_margins_keep_inner; rewrite ?Eb, ?Et, ?El, ?Er;
    try assumption; int_bounds; lia.
Qed.

Lemma unset_margins_never_read_outside_witness :
  snd (depthImageCallback (demo_env true) (fst (onInitialize empty_server))
         (Some Demo.K) Demo.msg) <> Undefined.
Proof.
  apply (unset_margins_never_read_outside empty_server (demo_env true)
           (Some Demo.K) Demo.msg); try reflexivity.
  intros K image0 _ E. injection E as <-. simpl. int_bounds. lia.
Defined.

(** X19. A tf exception can leave the frame callback only in the mode
    that reads the ground plane from tf: with [find_ground_plane] set,
    tf is not called, what tf would answer has no effect on the frame,
    and no frame ends with a tf exception. *)
Theorem plane_estimation_never_throws {PointCloud2 Image : Type}
    (env : Collaborators PointCloud2 Image) (cfg : Config)
    (K_ : option Matx33) (msg : Image) (e : TransformException) :
  find_ground_plane_ cfg = true ->
  snd (depthImageCallback env cfg K_ msg) <> Uncaught e /\
  forall transformVector' lookupTransform',
    depthImageCallback
      (mkCollaborators (msg_header env) (toCvCopy env) (depthTo3d env)
         (find_planes env) transformVector' lookupTransform'
         (convertPointCloudToPointCloud2 env)) cfg K_ msg =
    depthImageCallback env cfg K_ msg.
Proof.
  intros Hmode. split.
  - unfold depthImageCallback, find_ground. rewrite Hmode.
    destruct K_ as [K|]; [|discriminate].
    destruct (toCvCopy env msg) as [image0|]; [|discriminate].
    destruct (no_ground_plane _); [discriminate|].
    destruct (classify _ _ _); discriminate.
  - intros tv lt. unfold depthImageCallback, find_ground, deliver, hand_off.
    simpl. rewrite Hmode. reflexivity.
Qed.

Lemma plane_estimation_never_throws_witness :
  snd (depthImageCallback (demo_env true) Demo.cfg1 (Some Demo.K) Demo.msg)
    <> Uncaught LookupException /\
  forall transformVector' lookupTransform',
    depthImageCallback
      (mkCollaborators (msg_header (demo_env true)) (toCvCopy (demo_env true))
         (depthTo3d (demo_env true)) (find_planes (demo_env true))
         transformVector' lookupTransform'
         (convertPointCloudToPointCloud2 (demo_env true)))
      Demo.cfg1 (Some Demo.K) Demo.msg =
    depthImageCallback (demo_env true) Demo.cfg1 (Some Demo.K) Demo.msg.
Proof.
  apply (plane_estimation_never_throws (demo_env true) Demo.cfg1 (Some Demo.K)
           Demo.msg LookupException).
  reflexivity.
Defined.
